(** * dbhelper: the connection helper of [db.py]

    [db.py] is a thin layer over the PostgreSQL driver: [Database] keeps a
    driver pool, [DatabaseCursor] is the context manager that borrows one
    connection of it for a [with] block.  The classes are embedded as
    state-passing functions over a store of Python objects; every call
    into the driver is written to a log, so that statements about what a
    method does to the pool are statements about that log. *)

From Stdlib Require Import ZArith Ascii String List Bool Lia.
From stdpp Require Import base option list strings gmap.

Open Scope string_scope.
Open Scope list_scope.
Set Warnings "-register-all".

(** ** Python values *)

(** The values that reach [db.py] through its arguments.  [VRef r] is an
    instance of [Database] or of one of its subclasses, held in the object
    store at address [r]. *)
Inductive pyval :=
| VNone
| VBool (b : bool)
| VInt (z : Z)
| VStr (s : string)
| VDict (d : list (string * pyval))
| VRef (r : nat).

(** [d.get(k)] on the items of a dict: the first item with the key, the
    items being kept with the latest assignment first. *)
Fixpoint dict_get (d : list (string * pyval)) (k : string) : option pyval :=
  match d with
  | [] => None
  | (k', v) :: d' => if String.eqb k' k then Some v else dict_get d' k
  end.

(** [isinstance(v, dict)], [isinstance(v, str)], [isinstance(v, Database)]. *)
Definition isinstance_dict (v : pyval) : bool :=
  match v with VDict _ => true | _ => false end.

Definition isinstance_str (v : pyval) : bool :=
  match v with VStr _ => true | _ => false end.

Definition isinstance_Database (v : pyval) : bool :=
  match v with VRef _ => true | _ => false end.

(** Truth value of an object, as the [with] statement takes it of what
    [__exit__] returns. *)
Definition truthy (v : pyval) : bool :=
  match v with
  | VNone => false
  | VBool b => b
  | VInt z => negb (Z.eqb z 0)
  | VStr s => negb (String.eqb s "")
  | VDict d => match d with [] => false | _ => true end
  | VRef _ => true
  end.

(** ** The driver *)

(** [db.py] imports [pool] from psycopg2 and calls eight of its methods.
    The driver is not part of the repository: it is an interface here, with
    its own world (server, pools, connections, cursors), its own handles and
    its own exceptions.  Each operation returns a value or raises.
    [putconn] accepts any object: [None] there is Python's [None]. *)
Class Driver := {
  world : Type;
  pool : Type;
  conn : Type;
  cur : Type;
  dexn : Type;
  dexn_class : dexn -> string;
  drv_SimpleConnectionPool :
    pyval -> pyval -> list (string * pyval) -> world -> (dexn + pool) * world;
  drv_getconn : pool -> world -> (dexn + conn) * world;
  drv_putconn : pool -> option conn -> world -> (dexn + unit) * world;
  drv_closeall : pool -> world -> (dexn + unit) * world;
  drv_cursor : conn -> world -> (dexn + cur) * world;
  drv_rollback : conn -> world -> (dexn + unit) * world;
  drv_commit : conn -> world -> (dexn + unit) * world;
  drv_cursor_close : cur -> world -> (dexn + unit) * world
}.

(** ** Exceptions, objects, machine state *)

Section Machine.
Context `{D : Driver}.

(** What can be raised while a method of [db.py] runs.  [DriverError] is an
    exception raised inside the driver, [OtherError] one raised by the body
    of a [with] block.  [Dangling] is not a Python exception: it stands for
    an address outside the store, which Python cannot produce. *)
Inductive exn :=
| KeyError (k : string)
| TypeError (msg : string)
| AttributeError (obj attr : string)
| RuntimeError (msg : string)
| DriverError (e : dexn)
| OtherError (cls msg : string)
| Dangling (r : nat).

(** Name of the exception's class. *)
Definition exn_class (e : exn) : string :=
  match e with
  | KeyError _ => "KeyError"
  | TypeError _ => "TypeError"
  | AttributeError _ _ => "AttributeError"
  | RuntimeError _ => "RuntimeError"
  | DriverError e => dexn_class e
  | OtherError cls _ => cls
  | Dangling _ => "Dangling"
  end.

Inductive klass := KDatabase | KDatabaseCursor | KQuery.

(** An instance of [Database], [DatabaseCursor] or [Query].  The first five
    fields are set by [Database.__init__]; [database], [connection] and
    [cursor] are those of [DatabaseCursor], [dbcursor] is that of [Query].
    An attribute that holds [None] is [None] here. *)
Record object := {
  class_of : klass;
  server : pyval;
  dbname : pyval;
  params : option (pyval * pyval * list (string * pyval));
  connection_pool : option pool;
  init : bool;
  database : pyval;
  connection : option conn;
  cursor : option cur;
  dbcursor : pyval
}.

Definition blank (k : klass) : object :=
  {| class_of := k; server := VNone; dbname := VNone; params := None;
     connection_pool := None; init := false; database := VNone;
     connection := None; cursor := None; dbcursor := VNone |}.

Definition set_server (v : pyval) (o : object) : object :=
  {| class_of := class_of o; server := v; dbname := dbname o;
     params := params o; connection_pool := connection_pool o;
     init := init o; database := database o; connection := connection o;
     cursor := cursor o; dbcursor := dbcursor o |}.

Definition set_dbname (v : pyval) (o : object) : object :=
  {| class_of := class_of o; server := server o; dbname := v;
     params := params o; connection_pool := connection_pool o;
     init := init o; database := database o; connection := connection o;
     cursor := cursor o; dbcursor := dbcursor o |}.

Definition set_params (v : option (pyval * pyval * list (string * pyval)))
    (o : object) : object :=
  {| class_of := class_of o; server := server o; dbname := dbname o;
     params := v; connection_pool := connection_pool o;
     init := init o; database := database o; connection := connection o;
     cursor := cursor o; dbcursor := dbcursor o |}.

Definition set_connection_pool (v : option pool) (o : object) : object :=
  {| class_of := class_of o; server := server o; dbname := dbname o;
     params := params o; connection_pool := v;
     init := init o; database := database o; connection := connection o;
     cursor := cursor o; dbcursor := dbcursor o |}.

Definition set_init (v : bool) (o : object) : object :=
  {| class_of := class_of o; server := server o; dbname := dbname o;
     params := params o; connection_pool := connection_pool o;
     init := v; database := database o; connection := connection o;
     cursor := cursor o; dbcursor := dbcursor o |}.

Definition set_database (v : pyval) (o : object) : object :=
  {| class_of := class_of o; server := server o; dbname := dbname o;
     params := params o; connection_pool := connection_pool o;
     init := init o; database := v; connection := connection o;
     cursor := cursor o; dbcursor := dbcursor o |}.

Definition set_connection (v : option conn) (o : object) : object :=
  {| class_of := class_of o; server := server o; dbname := dbname o;
     params := params o; connection_pool := connection_pool o;
     init := init o; database := database o; connection := v;
     cursor := cursor o; dbcursor := dbcursor o |}.

Definition set_cursor (v : option cur) (o : object) : object :=
  {| class_of := class_of o; server := server o; dbname := dbname o;
     params := params o; connection_pool := connection_pool o;
     init := init o; database := database o; connection := connection o;
     cursor := v; dbcursor := dbcursor o |}.

Definition set_dbcursor (v : pyval) (o : object) : object :=
  {| class_of := class_of o; server := server o; dbname := dbname o;
     params := params o; connection_pool := connection_pool o;
     init := init o; database := database o; connection := connection o;
     cursor := cursor o; dbcursor := v |}.

(** One entry of the log per call into the driver, written when the call
    is made, whatever its outcome. *)
Inductive event :=
| EvSimpleConnectionPool (minconn maxconn : pyval) (kwargs : list (string * pyval))
| EvGetconn (p : pool)
| EvPutconn (p : pool) (c : option conn)
| EvCloseall (p : pool)
| EvCursor (c : conn)
| EvRollback (c : conn)
| EvCommit (c : conn)
| EvCursorClose (k : cur).

(** What [print] wrote: [__exit__] prints the exception type and value. *)
Inductive printed :=
| PrintType (t : option string)
| PrintVal (e : option exn).

(** The store of objects (address = position), the driver's world, the log
    of driver calls and the standard output. *)
Record state := {
  store : list object;
  drv : world;
  calls : list event;
  stdout : list printed
}.

Inductive outcome (A : Type) :=
| Ret (a : A)
| Raise (e : exn).
Arguments Ret {A} a.
Arguments Raise {A} e.

(** Computations: state in, outcome and state out. *)
Definition M (A : Type) : Type := state -> outcome A * state.

Definition ret {A} (a : A) : M A := fun s => (Ret a, s).

Definition raise {A} (e : exn) : M A := fun s => (Raise e, s).

Definition bind {A B} (m : M A) (f : A -> M B) : M B :=
  fun s => match m s with
           | (Ret a, s') => f a s'
           | (Raise e, s') => (Raise e, s')
           end.

Notation "x <- m ;; f" := (bind m (fun x => f))
  (at level 100, m at next level, right associativity).
Notation "m ;;; f" := (bind m (fun _ => f))
  (at level 100, right associativity).

(** Reading the object at an address. *)
Definition load (r : nat) : M object :=
  fun s => match store s !! r with
           | Some o => (Ret o, s)
           | None => (Raise (Dangling r), s)
           end.

(** [self.f], and [self.f = v] written as the update [upd] of the object. *)
Definition attr {A} (f : object -> A) (r : nat) : M A :=
  o <- load r ;; ret (f o).

Definition attr_server := attr server.
Definition attr_dbname := attr dbname.
Definition attr_connection_pool := attr connection_pool.
Definition attr_init := attr init.
Definition attr_database := attr database.
Definition attr_connection := attr connection.
Definition attr_cursor := attr cursor.

Definition setattr (r : nat) (upd : object -> object) : M unit :=
  o <- load r ;;
  fun s => (Ret tt, {| store := <[r := upd o]> (store s); drv := drv s;
                       calls := calls s; stdout := stdout s |}).

(** A new instance of class [k], without attributes yet. *)
Definition alloc (k : klass) : M nat :=
  fun s => (Ret (length (store s)),
            {| store := store s ++ [blank k]; drv := drv s;
               calls := calls s; stdout := stdout s |}).

(** A call into the driver: logged, run on the driver's world, its
    exception raised as it is. *)
Definition call {A} (ev : event) (f : world -> (dexn + A) * world) : M A :=
  fun s =>
    let '(r, w) := f (drv s) in
    let s' := {| store := store s; drv := w;
                 calls := calls s ++ [ev]; stdout := stdout s |} in
    match r with
    | inr a => (Ret a, s')
    | inl e => (Raise (DriverError e), s')
    end.

Definition print (p : printed) : M unit :=
  fun s => (Ret tt, {| store := store s; drv := drv s; calls := calls s;
                       stdout := stdout s ++ [p] |}).

(** [v[k]] for a string key: a dict gives the item or [KeyError], nothing
    else in [pyval] can be indexed by a string. *)
Definition subscript (v : pyval) (k : string) : M pyval :=
  match v with
  | VDict d => match dict_get d k with
               | Some x => ret x
               | None => raise (KeyError k)
               end
  | VStr _ => raise (TypeError "string indices must be integers")
  | VNone => raise (TypeError "'NoneType' object is not subscriptable")
  | VBool _ => raise (TypeError "'bool' object is not subscriptable")
  | VInt _ => raise (TypeError "'int' object is not subscriptable")
  | VRef _ => raise (TypeError "'Database' object is not subscriptable")
  end.

End Machine.

Arguments Ret {D A} a.
Arguments Raise {D A} e.

Notation "x <- m ;; f" := (bind m (fun x => f))
  (at level 100, m at next level, right associativity).
Notation "m ;;; f" := (bind m (fun _ => f))
  (at level 100, right associativity).

(** The name Python prints for the type of a value. *)
Definition typename (v : pyval) : string :=
  match v with
  | VNone => "NoneType"
  | VBool _ => "bool"
  | VInt _ => "int"
  | VStr _ => "str"
  | VDict _ => "dict"
  | VRef _ => "Database"
  end.

(** ** The built-in [str.format] *)

(** [template.format(args)] is Python's, not the repository's: it is a
    parameter.  It is a computation, since formatting an instance calls its
    [__repr__], which reads the store and may raise. *)
Class Builtins `{D : Driver} := {
  str_format : string -> list pyval -> M string
}.

(** ** class Database *)

Module Database.
Section Methods.
Context `{D : Driver}.

(** [v.a] for an attribute [a] that only the classes of [db.py] have. *)
Definition instance (v : pyval) (a : string) : M nat :=
  match v with
  | VRef r => ret r
  | _ => raise (AttributeError (typename v) a)
  end.

(** db.py, lines 9-30. *)
Definition __init__ (self : nat) (server dbname : pyval) : M unit :=
  setattr self (set_server server) ;;;
  setattr self (set_dbname dbname) ;;;
  setattr self (set_params None) ;;;
  setattr self (set_connection_pool None) ;;;
  setattr self (set_init false).

(** The expression [Database(server, dbname)]. *)
Definition new (server dbname : pyval) : M nat :=
  self <- alloc KDatabase ;;
  __init__ self server dbname ;;;
  ret self.

(** db.py, lines 40-67. *)
Definition initialize (self : nat) : M unit :=
  sv <- attr_server self ;;
  server <- subscript sv "param" ;;
  dbname <- attr_dbname self ;;
  port <- subscript server "port" ;;
  host <- subscript server "host" ;;
  user <- subscript server "user" ;;
  password <- subscript server "password" ;;
  let connection_params :=
    [("port", port); ("host", host); ("dbname", dbname);
     ("user", user); ("password", password)] in
  min_connections <- subscript server "minconn" ;;
  max_connections <- subscript server "maxconn" ;;
  setattr self
    (set_params (Some (min_connections, max_connections, connection_params))) ;;;
  p <- call (EvSimpleConnectionPool min_connections max_connections
               connection_params)
            (drv_SimpleConnectionPool min_connections max_connections
               connection_params) ;;
  setattr self (set_connection_pool (Some p)) ;;;
  setattr self (set_init true).

(** db.py, lines 69-74. *)
Definition get_connection (self : nat) : M conn :=
  cp <- attr_connection_pool self ;;
  match cp with
  | Some p => call (EvGetconn p) (drv_getconn p)
  | None => raise (AttributeError "NoneType" "getconn")
  end.

(** db.py, lines 77-84. *)
Definition return_connection (self : nat) (connection : option conn) : M unit :=
  cp <- attr_connection_pool self ;;
  match cp with
  | Some p => call (EvPutconn p connection) (drv_putconn p connection)
  | None => raise (AttributeError "NoneType" "putconn")
  end.

(** db.py, lines 87-94. *)
Definition close_all_connections (self : nat) : M unit :=
  cp <- attr_connection_pool self ;;
  match cp with
  | Some p => call (EvCloseall p) (drv_closeall p)
  | None => raise (AttributeError "NoneType" "closeall")
  end ;;;
  setattr self (set_init false) ;;;
  setattr self (set_connection_pool None).

End Methods.

Section Repr.
Context `{D : Driver} {B : Builtins}.

(** db.py, lines 32-38.  [a is not None and b] reads [b] only when [a] is
    not [None]; the arguments of [format] are evaluated from left to
    right. *)
Definition __repr__ (self : nat) : M string :=
  cp <- attr_connection_pool self ;;
  connected <- match cp with
               | Some _ => attr_init self
               | None => ret false
               end ;;
  if connected : bool then
    dbname <- attr_dbname self ;;
    sv <- attr_server self ;;
    name <- subscript sv "name" ;;
    str_format "<Connected Database {} on {}>" [dbname; name]
  else
    dbname <- attr_dbname self ;;
    sv <- attr_server self ;;
    name <- subscript sv "name" ;;
    str_format "<Disconnected Database {} on {}>" [dbname; name].

End Repr.
End Database.

(** ** class DatabaseCursor(Database) *)

Module DatabaseCursor.
Section Methods.
Context `{D : Driver}.

(** db.py, lines 120-128: which [Database] the cursor works on. *)
Definition choose_database (self : nat) (database server dbname : pyval)
    : M unit :=
  if negb (isinstance_Database database) then
    if isinstance_dict server && isinstance_str dbname then
      d <- Database.new server dbname ;;
      setattr self (set_database (VRef d))
    else
      raise (RuntimeError "No parameters for unknown database")
  else
    setattr self (set_database database).

(** db.py, lines 130-136: the database is initialized if it is not yet,
    and the cursor object takes its pool. *)
Definition connect_database (self : nat) : M unit :=
  db <- attr_database self ;;
  d <- Database.instance db "init" ;;
  i <- attr_init d ;;
  (if negb i then
     db <- attr_database self ;;
     d <- Database.instance db "initialize" ;;
     Database.initialize d
   else ret tt) ;;;
  db <- attr_database self ;;
  d <- Database.instance db "connection_pool" ;;
  cp <- attr_connection_pool d ;;
  setattr self (set_connection_pool cp) ;;;
  setattr self (set_connection None) ;;;
  setattr self (set_cursor None).

(** db.py, lines 103-136. *)
Definition __init__ (self : nat) (database server dbname : pyval) : M unit :=
  Database.__init__ self server dbname ;;;
  setattr self (set_server server) ;;;
  setattr self (set_dbname dbname) ;;;
  choose_database self database server dbname ;;;
  connect_database self.

(** The expression [DatabaseCursor(database, server, dbname)]. *)
Definition new (database server dbname : pyval) : M nat :=
  self <- alloc KDatabaseCursor ;;
  __init__ self database server dbname ;;;
  ret self.

(** db.py, lines 138-144. *)
Definition __enter__ (self : nat) : M (option cur) :=
  c <- Database.get_connection self ;;
  setattr self (set_connection (Some c)) ;;;
  sc <- attr_connection self ;;
  k <- match sc with
       | Some c => call (EvCursor c) (drv_cursor c)
       | None => raise (AttributeError "NoneType" "cursor")
       end ;;
  setattr self (set_cursor (Some k)) ;;;
  attr_cursor self.

(** db.py, lines 146-163.  The method has no [return]: it returns [None]. *)
Definition __exit__ (self : nat) (exc_type : option string)
    (exc_val : option exn) (exc_tb : option unit) : M pyval :=
  match exc_val with
  | Some _ =>
      print (PrintType exc_type) ;;;
      print (PrintVal exc_val) ;;;
      sc <- attr_connection self ;;
      match sc with
      | Some c => call (EvRollback c) (drv_rollback c)
      | None => raise (AttributeError "NoneType" "rollback")
      end
  | None =>
      sk <- attr_cursor self ;;
      match sk with
      | Some k => call (EvCursorClose k) (drv_cursor_close k)
      | None => raise (AttributeError "NoneType" "close")
      end ;;;
      sc <- attr_connection self ;;
      match sc with
      | Some c => call (EvCommit c) (drv_commit c)
      | None => raise (AttributeError "NoneType" "commit")
      end
  end ;;;
  sc <- attr_connection self ;;
  Database.return_connection self sc ;;;
  ret VNone.

(** The statement [with mgr as k: body], for a [DatabaseCursor] [mgr]:
    [__enter__], the body, then [__exit__] with the exception of the body
    or with three [None]; an exception of the body is raised again unless
    [__exit__] returns a true value. *)
Definition with_as (mgr : nat) (body : option cur -> M unit) : M unit :=
  k <- __enter__ mgr ;;
  fun s1 =>
    match body k s1 with
    | (Ret _, s2) => (__exit__ mgr None None None ;;; ret tt) s2
    | (Raise e, s2) =>
        (r <- __exit__ mgr (Some (exn_class e)) (Some e) (Some tt) ;;
         if truthy r then ret tt else raise e) s2
    end.

End Methods.
End DatabaseCursor.

(** ** class Query(Database) *)

Module Query.
Section Methods.
Context `{D : Driver}.

(** db.py, lines 170-178. *)
Definition __init__ (self : nat) (server dbname dbcursor : pyval) : M unit :=
  Database.__init__ self server dbname ;;;
  setattr self (set_server server) ;;;
  setattr self (set_dbname dbname) ;;;
  setattr self (set_dbcursor dbcursor).

(** The expression [Query(server, dbname, dbcursor)]. *)
Definition new (server dbname dbcursor : pyval) : M nat :=
  self <- alloc KQuery ;;
  __init__ self server dbname dbcursor ;;;
  ret self.

(** db.py, lines 184-195: the three methods whose body is [pass].  The two
    static ones take one argument, whatever it is. *)
Definition update_query_table (self : nat) : M pyval := ret VNone.

Definition create_query_table (self : pyval) : M pyval := ret VNone.

Definition delete_query_table (cls : pyval) : M pyval := ret VNone.

End Methods.

Section Repr.
Context `{D : Driver} {B : Builtins}.

(** db.py, lines 180-181. *)
Definition __repr__ (self : nat) : M string :=
  sv <- attr_server self ;;
  name <- subscript sv "name" ;;
  str_format "<Query table object in {}>" [name].

End Repr.
End Query.

(** ** The driver's pool, as psycopg2 has it *)

(** A model of the part of psycopg2 that [db.py] uses: [connect], the
    connection methods [cursor], [commit], [rollback] and [close], the
    cursor method [close], and [pool.SimpleConnectionPool], whose methods
    are those of [AbstractConnectionPool].  The server is a number of free
    slots: [connect] takes one, or fails when none is left; a connection
    whose server side is gone has status [UNKNOWN]. *)
Module Psycopg2.

(** The exceptions of psycopg2, and the built-in ones its code can raise.
    [NoSuchObject] is not a Python exception: it stands for a handle
    outside the world, which Python cannot produce. *)
Inductive error :=
| PoolError (msg : string)
| OperationalError (msg : string)
| InterfaceError (msg : string)
| ProgrammingError (msg : string)
| BuiltinTypeError (msg : string)
| BuiltinValueError (msg : string)
| BuiltinKeyError (key : nat)
| NoSuchObject.

Definition error_class (e : error) : string :=
  match e with
  | PoolError _ => "PoolError"
  | OperationalError _ => "OperationalError"
  | InterfaceError _ => "InterfaceError"
  | ProgrammingError _ => "ProgrammingError"
  | BuiltinTypeError _ => "TypeError"
  | BuiltinValueError _ => "ValueError"
  | BuiltinKeyError _ => "KeyError"
  | NoSuchObject => "NoSuchObject"
  end.

(** [connection.info.transaction_status]. *)
Inductive txstatus := IDLE | ACTIVE | INTRANS | INERROR | UNKNOWN.

Record connection_state := {
  conn_closed : bool;
  conn_status : txstatus
}.

Record cursor_state := {
  cur_conn : nat;
  cur_closed : bool
}.

(** The attributes of an [AbstractConnectionPool]: [_pool] is the list of
    idle connections, [_used] maps a key to the connection given out under
    it, [_rused] maps a connection back to its key. *)
Record pool_state := {
  minconn : Z;
  maxconn : Z;
  closed : bool;
  _kwargs : list (string * pyval);
  _pool : list nat;
  _used : gmap nat nat;
  _rused : gmap nat nat;
  _keys : nat
}.

Record world := {
  pools : list pool_state;
  conns : list connection_state;
  cursors : list cursor_state;
  slots : nat
}.

Definition set_pools (v : list pool_state) (w : world) : world :=
  {| pools := v; conns := conns w; cursors := cursors w; slots := slots w |}.

Definition set_conn (c : nat) (cs : connection_state) (w : world) : world :=
  {| pools := pools w; conns := <[c := cs]> (conns w); cursors := cursors w;
     slots := slots w |}.

Definition set_pool (p : nat) (ps : pool_state) (w : world) : world :=
  set_pools (<[p := ps]> (pools w)) w.

(** The pool [ps] with other idle and used connections, and key counter. *)
Definition repool (ps : pool_state) (idle : list nat) (used rused : gmap nat nat)
    (keys : nat) : pool_state :=
  {| minconn := minconn ps; maxconn := maxconn ps; closed := closed ps;
     _kwargs := _kwargs ps; _pool := idle; _used := used; _rused := rused;
     _keys := keys |}.

Definition set_closed (ps : pool_state) : pool_state :=
  {| minconn := minconn ps; maxconn := maxconn ps; closed := true;
     _kwargs := _kwargs ps; _pool := _pool ps; _used := _used ps;
     _rused := _rused ps; _keys := _keys ps |}.

(** The value of a string of decimal digits, most significant first. *)
Fixpoint digits (s : string) (acc : Z) : option Z :=
  match s with
  | EmptyString => Some acc
  | String a s' =>
      let n := Ascii.nat_of_ascii a in
      if (48 <=? n)%nat && (n <=? 57)%nat
      then digits s' (10 * acc + Z.of_nat (n - 48))
      else None
  end.

(** The value of a signed decimal numeral. *)
Definition numeral (s : string) : option Z :=
  let unsigned s :=
    match s with
    | EmptyString => None
    | String _ _ => digits s 0
    end in
  match s with
  | EmptyString => None
  | String a s' =>
      if Ascii.eqb a "-"%char then Z.opp <$> unsigned s'
      else if Ascii.eqb a "+"%char then unsigned s'
      else unsigned s
  end.

(** [int(v)]: an integer is itself, a string is read as a signed decimal
    numeral.  The blanks and underscores that [int] also accepts in a string
    are not modelled: such a string is taken to raise [ValueError]. *)
Definition py_int (v : pyval) : error + Z :=
  match v with
  | VInt z => inr z
  | VBool b => inr (if b then 1 else 0)%Z
  | VStr s =>
      match numeral s with
      | Some z => inr z
      | None => inl (BuiltinValueError "invalid literal for int()")
      end
  | VNone | VDict _ | VRef _ =>
      inl (BuiltinTypeError "int() argument must be a string or a number")
  end.

(** A connection as [connect] returns it. *)
Definition fresh_connection : connection_state :=
  {| conn_closed := false; conn_status := IDLE |}.

(** [psycopg2.connect], called with the keyword arguments of the pool. *)
Definition connect (kwargs : list (string * pyval)) (w : world)
    : (error + nat) * world :=
  match slots w with
  | O => (inl (OperationalError "could not connect to server"), w)
  | S n =>
      (inr (length (conns w)),
       {| pools := pools w; conns := conns w ++ [fresh_connection];
          cursors := cursors w; slots := n |})
  end.

(** [connection.close()]: closing again does nothing. *)
Definition conn_close (c : nat) (w : world) : world :=
  match conns w !! c with
  | Some cs =>
      if conn_closed cs then w
      else {| pools := pools w;
              conns := <[c := {| conn_closed := true;
                                 conn_status := conn_status cs |}]> (conns w);
              cursors := cursors w; slots := S (slots w) |}
  | None => w
  end.

(** [connection.cursor()]. *)
Definition conn_cursor (c : nat) (w : world) : (error + nat) * world :=
  match conns w !! c with
  | None => (inl NoSuchObject, w)
  | Some cs =>
      if conn_closed cs
      then (inl (InterfaceError "connection already closed"), w)
      else (inr (length (cursors w)),
            {| pools := pools w; conns := conns w;
               cursors := cursors w ++ [{| cur_conn := c; cur_closed := false |}];
               slots := slots w |})
  end.

(** The end of a transaction, [connection.commit()] or
    [connection.rollback()]: both leave the connection idle, and both fail
    on a closed connection and on one whose server side is gone. *)
Definition conn_end_transaction (c : nat) (w : world) : (error + unit) * world :=
  match conns w !! c with
  | None => (inl NoSuchObject, w)
  | Some cs =>
      if conn_closed cs
      then (inl (InterfaceError "connection already closed"), w)
      else match conn_status cs with
           | UNKNOWN =>
               (inl (OperationalError
                       "server closed the connection unexpectedly"), w)
           | _ => (inr tt,
                   set_conn c {| conn_closed := false; conn_status := IDLE |} w)
           end
  end.

Definition conn_commit := conn_end_transaction.

Definition conn_rollback := conn_end_transaction.

(** [cursor.close()] of a client-side cursor. *)
Definition cursor_close (k : nat) (w : world) : (error + unit) * world :=
  match cursors w !! k with
  | None => (inl NoSuchObject, w)
  | Some ks =>
      (inr tt,
       {| pools := pools w; conns := conns w;
          cursors := <[k := {| cur_conn := cur_conn ks; cur_closed := true |}]>
                       (cursors w);
          slots := slots w |})
  end.

(** [cursor.execute(sql)]: [ok] tells whether the server accepts the
    statement.  [db.py] never calls it, the body of a [with] block does. *)
Definition cursor_execute (k : nat) (ok : bool) (w : world)
    : (error + unit) * world :=
  match cursors w !! k with
  | None => (inl NoSuchObject, w)
  | Some ks =>
      if cur_closed ks then (inl (InterfaceError "cursor already closed"), w)
      else
        match conns w !! cur_conn ks with
        | None => (inl NoSuchObject, w)
        | Some cs =>
            if conn_closed cs
            then (inl (InterfaceError "connection already closed"), w)
            else
              match conn_status cs with
              | UNKNOWN =>
                  (inl (OperationalError
                          "server closed the connection unexpectedly"), w)
              | INERROR =>
                  (inl (ProgrammingError "current transaction is aborted"), w)
              | _ =>
                  if ok
                  then (inr tt,
                        set_conn (cur_conn ks)
                          {| conn_closed := false; conn_status := INTRANS |} w)
                  else (inl (ProgrammingError "syntax error"),
                        set_conn (cur_conn ks)
                          {| conn_closed := false; conn_status := INERROR |} w)
              end
        end
  end.

(** The server drops a connection: nothing is raised until it is used. *)
Definition server_drops (c : nat) (w : world) : world :=
  match conns w !! c with
  | Some cs =>
      set_conn c {| conn_closed := conn_closed cs; conn_status := UNKNOWN |} w
  | None => w
  end.

(** The loop [for i in range(self.minconn): self._connect()] of
    [AbstractConnectionPool.__init__]: each new connection is appended to
    [_pool]. *)
Fixpoint connect_idle (n : nat) (kwargs : list (string * pyval))
    (idle : list nat) (w : world) : (error + list nat) * world :=
  match n with
  | O => (inr idle, w)
  | S n' =>
      match connect kwargs w with
      | (inr c, w') => connect_idle n' kwargs (idle ++ [c]) w'
      | (inl e, w') => (inl e, w')
      end
  end.

(** [pool.SimpleConnectionPool(minconn, maxconn, **kwargs)]. *)
Definition SimpleConnectionPool (minc maxc : pyval)
    (kwargs : list (string * pyval)) (w : world) : (error + nat) * world :=
  match py_int minc with
  | inl e => (inl e, w)
  | inr mn =>
      match py_int maxc with
      | inl e => (inl e, w)
      | inr mx =>
          match connect_idle (Z.to_nat mn) kwargs [] w with
          | (inl e, w') => (inl e, w')
          | (inr idle, w') =>
              (inr (length (pools w')),
               set_pools
                 (pools w' ++
                    [{| minconn := mn; maxconn := mx; closed := false;
                        _kwargs := kwargs; _pool := idle; _used := ∅;
                        _rused := ∅; _keys := O |}]) w')
          end
      end
  end.

(** [list.pop()]: the last element and the list without it. *)
Definition list_pop (l : list nat) : option (list nat * nat) :=
  match rev l with
  | [] => None
  | x :: r => Some (rev r, x)
  end.

(** [getconn()], that is [_getconn(key=None)]. *)
Definition getconn (p : nat) (w : world) : (error + nat) * world :=
  match pools w !! p with
  | None => (inl NoSuchObject, w)
  | Some ps =>
      if closed ps then (inl (PoolError "connection pool is closed"), w)
      else
        let key := S (_keys ps) in
        match _used ps !! key with
        | Some c =>
            (inr c,
             set_pool p (repool ps (_pool ps) (_used ps) (_rused ps) key) w)
        | None =>
            match list_pop (_pool ps) with
            | Some (idle, c) =>
                (inr c,
                 set_pool p
                   (repool ps idle (<[key := c]> (_used ps))
                      (<[c := key]> (_rused ps)) key) w)
            | None =>
                if (Z.of_nat (size (_used ps)) =? maxconn ps)%Z
                then (inl (PoolError "connection pool exhausted"),
                      set_pool p
                        (repool ps (_pool ps) (_used ps) (_rused ps) key) w)
                else
                  match connect (_kwargs ps) w with
                  | (inl e, w') =>
                      (inl e,
                       set_pool p
                         (repool ps (_pool ps) (_used ps) (_rused ps) key) w')
                  | (inr c, w') =>
                      (inr c,
                       set_pool p
                         (repool ps (_pool ps) (<[key := c]> (_used ps))
                            (<[c := key]> (_rused ps)) key) w')
                  end
            end
        end
  end.

(** [putconn(conn)], that is [_putconn(conn, key=None, close=False)].
    [None] for [conn] is an object that is no connection of the driver. *)
Definition putconn (p : nat) (conn : option nat) (w : world)
    : (error + unit) * world :=
  match pools w !! p with
  | None => (inl NoSuchObject, w)
  | Some ps =>
      if closed ps then (inl (PoolError "connection pool is closed"), w)
      else
        match conn with
        | None => (inl (PoolError "trying to put unkeyed connection"), w)
        | Some c =>
            match _rused ps !! c with
            | None => (inl (PoolError "trying to put unkeyed connection"), w)
            | Some key =>
                let keep :=
                  if (Z.of_nat (length (_pool ps)) <? minconn ps)%Z then
                    match conns w !! c with
                    | None => (false, w)
                    | Some cs =>
                        if conn_closed cs then (false, w)
                        else
                          match conn_status cs with
                          | UNKNOWN => (false, conn_close c w)
                          | IDLE => (true, w)
                          | _ => (true, snd (conn_rollback c w))
                          end
                    end
                  else (false, conn_close c w) in
                let idle :=
                  if fst keep then _pool ps ++ [c] else _pool ps in
                match _used ps !! key with
                | None =>
                    (inl (BuiltinKeyError key),
                     set_pool p
                       (repool ps idle (_used ps) (_rused ps) (_keys ps))
                       (snd keep))
                | Some _ =>
                    (inr tt,
                     set_pool p
                       (repool ps idle (delete key (_used ps))
                          (delete c (_rused ps)) (_keys ps))
                       (snd keep))
                end
            end
        end
  end.

(** [closeall()]: every connection, idle or given out, is closed. *)
Definition closeall (p : nat) (w : world) : (error + unit) * world :=
  match pools w !! p with
  | None => (inl NoSuchObject, w)
  | Some ps =>
      if closed ps then (inl (PoolError "connection pool is closed"), w)
      else
        let w' := foldl (fun w c => conn_close c w) w
                    (_pool ps ++ (map_to_list (_used ps)).*2) in
        (inr tt, set_pool p (set_closed ps) w')
  end.

(** The connection [c] is given out by the pool: [id(c)] is in [_rused].
    It is not for a connection of another pool, for one that the pool
    holds idle, and for one that was put back. *)
Definition given_out (ps : pool_state) (c : nat) : bool :=
  match _rused ps !! c with Some _ => true | None => false end.

(** What [status()] of the specification would report of a pool: idle,
    in use, total. *)
Definition counts (ps : pool_state) : nat * nat * nat :=
  (length (_pool ps), size (_used ps), length (_pool ps) + size (_used ps)).

End Psycopg2.

#[export] Instance psycopg2 : Driver := {|
  world := Psycopg2.world;
  pool := nat;
  conn := nat;
  cur := nat;
  dexn := Psycopg2.error;
  dexn_class := Psycopg2.error_class;
  drv_SimpleConnectionPool := Psycopg2.SimpleConnectionPool;
  drv_getconn := Psycopg2.getconn;
  drv_putconn := Psycopg2.putconn;
  drv_closeall := Psycopg2.closeall;
  drv_cursor := Psycopg2.conn_cursor;
  drv_rollback := Psycopg2.conn_rollback;
  drv_commit := Psycopg2.conn_commit;
  drv_cursor_close := Psycopg2.cursor_close
|}.

(** ** What a run shows *)

Section Observations.
Context `{D : Driver}.

(** The driver calls logged between state [s] and a later state [s']. *)
Definition emitted (s s' : state) : list event :=
  drop (length (calls s)) (calls s').

(** The [putconn] calls of a log, in order: pool and connection. *)
Definition releases (l : list event) : list (pool * option conn) :=
  omap (fun ev => match ev with
                  | EvPutconn p c => Some (p, c)
                  | _ => None
                  end) l.

Definition is_commit (ev : event) : bool :=
  match ev with EvCommit _ => true | _ => false end.

Definition is_cursor_close (ev : event) : bool :=
  match ev with EvCursorClose _ => true | _ => false end.

(** [self.connection_pool is not None]. *)
Definition has_pool (o : object) : bool :=
  match connection_pool o with Some _ => true | None => false end.

(** The invariant of the instances: [init] is only true while there is a
    pool.  [Database.__init__] establishes it, and [initialize] and
    [close_all_connections], the two methods that assign [init], keep it. *)
Definition wf_object (o : object) : bool := implb (init o) (has_pool o).

Definition wf_store (s : state) : bool := forallb wf_object (store s).

Definition is_RuntimeError (e : exn) : bool :=
  match e with RuntimeError _ => true | _ => false end.

(** The computation [m] never raises [RuntimeError]. *)
Definition clean {A} (m : M A) : Prop :=
  forall s e, fst (m s) = Raise e -> is_RuntimeError e = false.

(** The computation [m] keeps the invariant of the store, whether it
    returns or raises. *)
Definition keeps {A} (m : M A) : Prop :=
  forall s, wf_store s = true -> wf_store (snd (m s)) = true.

Definition is_construct (ev : event) : bool :=
  match ev with EvSimpleConnectionPool _ _ _ => true | _ => false end.

(** The computation [m] makes at most [n] calls into the driver, all of
    them pool constructions. *)
Definition constructs_at_most {A} (n : nat) (m : M A) : Prop :=
  forall s, exists l,
    calls (snd (m s)) = calls s ++ l /\
    Forall (fun ev => is_construct ev = true) l /\ length l <= n.

(** The computation [m] assigns attributes of the object at [self] only:
    every other address holds after it what it held before. *)
Definition assigns_only {A} (self : nat) (m : M A) : Prop :=
  forall s r, r <> self -> store (snd (m s)) !! r = store s !! r.

(** The computation [m] keeps every object at its address, with its class
    and its configuration. *)
Definition same_config (o o' : object) : Prop :=
  class_of o' = class_of o /\ server o' = server o /\ dbname o' = dbname o.

Definition keeps_config {A} (m : M A) : Prop :=
  forall s r o,
    store s !! r = Some o ->
    exists o', store (snd (m s)) !! r = Some o' /\ same_config o o'.

(** The object that [Database.__init__] leaves of a blank one. *)
Definition disconnected (k : klass) (server dbname : pyval) : object :=
  set_dbname dbname (set_server server (blank k)).

(** [d[k]] for a key that [d] has, and the keyword arguments that
    [initialize] builds from [server['param']] and the database name. *)
Definition item (d : list (string * pyval)) (k : string) : pyval :=
  default VNone (dict_get d k).

Definition connection_params_of (d : list (string * pyval)) (dbname : pyval)
    : list (string * pyval) :=
  [("port", item d "port"); ("host", item d "host"); ("dbname", dbname);
   ("user", item d "user"); ("password", item d "password")].

(** The keys that [initialize] reads in [server['param']], in the order in
    which it reads them. *)
Definition required_keys : list string :=
  ["port"; "host"; "user"; "password"; "minconn"; "maxconn"].

(** The first key of [ks] that the dict [d] lacks. *)
Fixpoint first_missing (d : list (string * pyval)) (ks : list string)
    : option string :=
  match ks with
  | [] => None
  | k :: ks' =>
      match dict_get d k with
      | Some _ => first_missing d ks'
      | None => Some k
      end
  end.

End Observations.

(** ** A session against the psycopg2 model *)

Module Session.

(** A server with ten free slots, no pool yet, an empty store. *)
Definition w0 : Psycopg2.world :=
  {| Psycopg2.pools := []; Psycopg2.conns := []; Psycopg2.cursors := [];
     Psycopg2.slots := 10 |}.

Definition s0 : state :=
  {| store := []; drv := w0; calls := []; stdout := [] |}.

(** The server dictionary of the docstring of [Database.__init__]. *)
Definition param (mn mx : Z) : list (string * pyval) :=
  [("port", VStr "5432"); ("host", VStr "127.0.0.1");
   ("user", VStr "username"); ("password", VStr "passwd");
   ("minconn", VInt mn); ("maxconn", VInt mx)].

Definition config (mn mx : Z) : pyval :=
  VDict [("name", VStr "my-db"); ("param", VDict (param mn mx))].

(** The same without the host. *)
Definition config_no_host : pyval :=
  VDict [("name", VStr "my-db");
         ("param", VDict [("port", VStr "5432"); ("user", VStr "username");
                          ("password", VStr "passwd");
                          ("minconn", VInt 1); ("maxconn", VInt 5)])].

(** [Database(config, "db")] at address 0, then [initialize()]: the pool is
    pool 0 of the world, with connections 0 and 1 idle. *)
Definition s_db : state := Eval vm_compute in
  snd ((d <- Database.new (config 2 5) (VStr "db") ;; Database.initialize d) s0).

(** [DatabaseCursor(None, config, "db")]: the cursor object is at address 0,
    the [Database] it creates at address 1. *)
Definition s_cursor : state := Eval vm_compute in
  snd (DatabaseCursor.new VNone (config 2 5) (VStr "db") s0).

(** Inside the [with] block of that cursor object: connection 1 is given
    out and cursor 0 is open on it. *)
Definition s_entered : state := Eval vm_compute in
  snd (DatabaseCursor.__enter__ 0 s_cursor).

(** [Database(config, "db")] alone, not initialized, with the host missing,
    with more minimum than maximum connections, with a negative minimum. *)
Definition s_no_host : state := Eval vm_compute in
  snd (Database.new config_no_host (VStr "db") s0).

Definition s_min_above_max : state := Eval vm_compute in
  snd (Database.new (config 5 2) (VStr "db") s0).

Definition s_min_negative : state := Eval vm_compute in
  snd (Database.new (config (-3) 2) (VStr "db") s0).

Definition s_new : state := Eval vm_compute in
  snd (Database.new (config 2 5) (VStr "db") s0).

(** After [close_all_connections()] on the initialized [Database]. *)
Definition s_shut : state := Eval vm_compute in
  snd (Database.close_all_connections 0 s_db).

(** A body that executes one statement, which the server accepts. *)
Definition body_ok (k : option nat) : M unit :=
  match k with
  | Some k => fun s =>
      let '(r, w) := Psycopg2.cursor_execute k true (drv s) in
      (match r with inr _ => Ret tt | inl e => Raise (DriverError e) end,
       {| store := store s; drv := w; calls := calls s; stdout := stdout s |})
  | None => raise (AttributeError "NoneType" "execute")
  end.

(** A body that raises. *)
Definition body_raises (k : option nat) : M unit :=
  raise (OtherError "ValueError" "boom").

(** A body during which the server drops the borrowed connection. *)
Definition body_dropped (k : option nat) : M unit :=
  fun s =>
    (Ret tt,
     {| store := store s; drv := Psycopg2.server_drops 1 (drv s);
        calls := calls s; stdout := stdout s |}).

(** The state in which the first body leaves the scope. *)
Definition s_body_ok : state := Eval vm_compute in
  snd (body_ok (Some 0) s_entered).

(** A body that executes a statement, after which the server drops the
    borrowed connection: the transaction that the statement opened cannot
    be ended any more. *)
Definition body_stmt_dropped (k : option nat) : M unit :=
  body_ok k ;;; body_dropped k.

(** The same body, which then raises. *)
Definition body_stmt_dropped_raises (k : option nat) : M unit :=
  body_ok k ;;; body_dropped k ;;; body_raises k.

(** The states in which these two bodies leave the scope. *)
Definition s_body_stmt_dropped : state := Eval vm_compute in
  snd (body_stmt_dropped (Some 0) s_entered).

Definition s_body_stmt_dropped_raises : state := Eval vm_compute in
  snd (body_stmt_dropped_raises (Some 0) s_entered).

(** The initialized database after connection 1 was given out, put back
    and given out again, to a second holder. *)
Definition s_given_again : state := Eval vm_compute in
  snd ((c <- Database.get_connection 0 ;;
        Database.return_connection 0 (Some c) ;;;
        Database.get_connection 0) s_db).

(** [Database()] with the default arguments. *)
Definition s_default : state := Eval vm_compute in
  snd (Database.new VNone VNone s0).

(** [Database(config, "db")] on a server with one free slot, which the two
    connections of the configuration do not fit. *)
Definition s_one_slot : state := Eval vm_compute in
  snd (Database.new (config 2 5) (VStr "db")
         {| store := [];
            drv := {| Psycopg2.pools := []; Psycopg2.conns := [];
                      Psycopg2.cursors := []; Psycopg2.slots := 1 |};
            calls := []; stdout := [] |}).

(** The cursor object and its database, after the shutdown of the
    database: the cursor object still holds the pool, which is closed. *)
Definition s_cursor_shut : state := Eval vm_compute in
  snd (Database.close_all_connections 1 s_cursor).

(** [str(v)] for a string and for [None]. *)
Definition str_of (v : pyval) : option string :=
  match v with
  | VStr s => Some s
  | VNone => Some "None"
  | _ => None
  end.

(** The template with each [{}] replaced by the next argument. *)
Fixpoint fill (t : string) (args : list string) : option string :=
  match t with
  | EmptyString => Some EmptyString
  | String a t' =>
      match t' with
      | String b t'' =>
          if Ascii.eqb a "{"%char && Ascii.eqb b "}"%char then
            match args with
            | [] => None
            | x :: args' => String.append x <$> fill t'' args'
            end
          else String a <$> fill t' args
      | EmptyString => Some (String a EmptyString)
      end
  end.

(** The [str.format] of the session.  It formats strings and [None], which
    is all that the session formats; for another argument it has no answer
    and raises, which Python would not. *)
#[global] Instance format : Builtins := {|
  str_format t args :=
    match mapM str_of args with
    | Some l =>
        match fill t l with
        | Some r => ret r
        | None => raise (OtherError "IndexError" "tuple index out of range")
        end
    | None => raise (OtherError "NotImplementedError" "format")
    end
|}.

End Session.

(** * Proofs *)

(** Running a method on a symbolic state: the monad and the primitives are
    unfolded, the projections of explicit states are reduced. *)
Ltac run :=
  repeat (progress (cbv beta iota delta
                      [bind ret raise attr load call print setattr alloc
                       attr_server attr_dbname attr_connection_pool attr_init
                       attr_database attr_connection attr_cursor];
                    cbn [store drv calls stdout fst snd])).

(** Bounds of addresses, and lookups in a store that was updated. *)
Ltac len :=
  rewrite ?length_insert, ?length_app; cbn [length];
  repeat match goal with
         | H : _ !! _ = Some _ |- _ => apply lookup_lt_Some in H
         end; lia.

Ltac sizes :=
  repeat first [rewrite length_insert | rewrite length_app];
  cbn [length]; lia.

Ltac lk :=
  repeat first
    [ rewrite list_lookup_insert_eq by len
    | rewrite list_lookup_insert_ne by (first [assumption | congruence | lia])
    | rewrite list_insert_insert_eq ].

(** ** The store and the log *)

Section StoreFacts.
Context `{D : Driver}.

Lemma lookup_insert_here (l : list object) (r : nat) (o x : object) :
  l !! r = Some o -> <[r := x]> l !! r = Some x.
Proof. intros H. apply list_lookup_insert_eq. eapply lookup_lt_Some, H. Qed.

Lemma lookup_fresh (l : list object) (x : object) :
  (l ++ [x]) !! length l = Some x.
Proof. apply list_lookup_middle. reflexivity. Qed.

Lemma wf_store_Forall (s : state) :
  wf_store s = true <-> Forall (fun o => wf_object o = true) (store s).
Proof.
  unfold wf_store. rewrite forallb_forall, Forall_forall.
  split; intros H x Hx; apply H; apply list_elem_of_In; exact Hx.
Qed.

Lemma wf_store_lookup (s : state) (r : nat) (o : object) :
  wf_store s = true -> store s !! r = Some o -> wf_object o = true.
Proof.
  rewrite wf_store_Forall, Forall_lookup. intros H Ho. exact (H r o Ho).
Qed.

Lemma wf_store_insert (s : state) (r : nat) (x : object) (w : world)
    (cl : list event) (out : list printed) :
  wf_store s = true -> wf_object x = true ->
  wf_store {| store := <[r := x]> (store s); drv := w; calls := cl;
              stdout := out |} = true.
Proof.
  rewrite !wf_store_Forall. cbn [store]. intros H Hx.
  apply Forall_insert; assumption.
Qed.

Lemma emitted_app (s s' : state) (l : list event) :
  calls s' = calls s ++ l -> emitted s s' = l.
Proof. intros H. unfold emitted. rewrite H. apply drop_app_length. Qed.

End StoreFacts.

(** ** The methods of Database *)

Section DatabaseFacts.
Context `{D : Driver}.

Lemma close_all_connections_returns (s : state) (self : nat) (o : object)
    (p : pool) (w : world) :
  store s !! self = Some o -> connection_pool o = Some p ->
  drv_closeall p (drv s) = (inr tt, w) ->
  Database.close_all_connections self s =
    (Ret tt,
     {| store := <[self := set_connection_pool None (set_init false o)]> (store s);
        drv := w; calls := calls s ++ [EvCloseall p]; stdout := stdout s |}).
Proof.
  intros Ho Hp Hw. unfold Database.close_all_connections. run.
  rewrite Ho. run. rewrite Hp. run. rewrite Hw. run. rewrite Ho. run.
  rewrite (lookup_insert_here _ _ _ _ Ho). run.
  rewrite list_insert_insert_eq. reflexivity.
Qed.

(** Inversion: a shutdown that returns has found a pool and closed it. *)
Lemma close_all_connections_inv (s s1 : state) (self : nat) :
  Database.close_all_connections self s = (Ret tt, s1) ->
  exists o p w,
    store s !! self = Some o /\ connection_pool o = Some p /\
    drv_closeall p (drv s) = (inr tt, w) /\
    s1 = {| store := <[self := set_connection_pool None (set_init false o)]> (store s);
            drv := w; calls := calls s ++ [EvCloseall p]; stdout := stdout s |}.
Proof.
  intros H.
  destruct (store s !! self) as [o|] eqn:Ho.
  2:{ revert H. unfold Database.close_all_connections. run. rewrite Ho. run. discriminate. }
  destruct (connection_pool o) as [p|] eqn:Hp.
  2:{ revert H. unfold Database.close_all_connections. run. rewrite Ho. run.
      rewrite Hp. run. discriminate. }
  destruct (drv_closeall p (drv s)) as [[x|[]] w] eqn:Hw.
  { revert H. unfold Database.close_all_connections. run. rewrite Ho. run.
    rewrite Hp. run. rewrite Hw. run. discriminate. }
  rewrite (close_all_connections_returns _ _ _ _ _ Ho Hp Hw) in H.
  exists o, p, w. repeat split; congruence.
Qed.

Lemma get_connection_no_pool (s : state) (self : nat) (o : object) :
  store s !! self = Some o -> connection_pool o = None ->
  Database.get_connection self s = (Raise (AttributeError "NoneType" "getconn"), s).
Proof.
  intros Ho Hp. unfold Database.get_connection. run. rewrite Ho. run.
  rewrite Hp. reflexivity.
Qed.

Lemma close_all_connections_no_pool (s : state) (self : nat) (o : object) :
  store s !! self = Some o -> connection_pool o = None ->
  Database.close_all_connections self s =
    (Raise (AttributeError "NoneType" "closeall"), s).
Proof.
  intros Ho Hp. unfold Database.close_all_connections. run. rewrite Ho. run.
  rewrite Hp. reflexivity.
Qed.

Lemma initialize_missing_key (s : state) (self : nat) (o : object)
    (sd d : list (string * pyval)) (k : string) :
  store s !! self = Some o -> server o = VDict sd ->
  dict_get sd "param" = Some (VDict d) ->
  first_missing d required_keys = Some k ->
  Database.initialize self s = (Raise (KeyError k), s).
Proof.
  intros Ho Hs Hp Hk. unfold Database.initialize. run. rewrite Ho. run.
  rewrite Hs. unfold subscript at 1. rewrite Hp. run. rewrite Ho. run.
  revert Hk. unfold required_keys, first_missing, subscript.
  repeat (match goal with
          | |- context [dict_get d ?k] => destruct (dict_get d k); run
          end; try (intros [= <-]; reflexivity)).
Qed.

Lemma initialize_all_keys (s : state) (self : nat) (o : object)
    (sd d : list (string * pyval)) :
  store s !! self = Some o -> server o = VDict sd ->
  dict_get sd "param" = Some (VDict d) ->
  first_missing d required_keys = None ->
  Database.initialize self s =
    let mn := item d "minconn" in
    let mx := item d "maxconn" in
    let kw := connection_params_of d (dbname o) in
    match drv_SimpleConnectionPool mn mx kw (drv s) with
    | (inl e, w) =>
        (Raise (DriverError e),
         {| store := <[self := set_params (Some (mn, mx, kw)) o]> (store s);
            drv := w; calls := calls s ++ [EvSimpleConnectionPool mn mx kw];
            stdout := stdout s |})
    | (inr p, w) =>
        (Ret tt,
         {| store := <[self := set_init true
                                (set_connection_pool (Some p)
                                   (set_params (Some (mn, mx, kw)) o))]> (store s);
            drv := w; calls := calls s ++ [EvSimpleConnectionPool mn mx kw];
            stdout := stdout s |})
    end.
Proof.
  intros Ho Hs Hp Hk. unfold Database.initialize. run. rewrite Ho. run.
  rewrite Hs. unfold subscript at 1. rewrite Hp. run. rewrite Ho. run.
  revert Hk. unfold required_keys, first_missing, subscript, connection_params_of, item.
  repeat (match goal with
          | |- context [dict_get d ?k] => destruct (dict_get d k); run
          end; try discriminate).
  intros _. rewrite Ho. run.
  cbv [default from_option id].
  match goal with |- context [drv_SimpleConnectionPool ?a ?b ?c ?w] =>
    destruct (drv_SimpleConnectionPool a b c w) as [[e|q] w'] end; run.
  - reflexivity.
  - rewrite list_lookup_insert_eq by (eapply lookup_lt_Some, Ho). run.
    rewrite list_lookup_insert_eq by (rewrite length_insert; eapply lookup_lt_Some, Ho). run.
    rewrite !list_insert_insert_eq. reflexivity.
Qed.
Lemma initialize_returns (s s' : state) (self : nat) :
  Database.initialize self s = (Ret tt, s') ->
  exists o p mn mx kw w,
    store s !! self = Some o /\
    drv_SimpleConnectionPool mn mx kw (drv s) = (inr p, w) /\
    s' = {| store := <[self := set_init true
                               (set_connection_pool (Some p)
                                  (set_params (Some (mn, mx, kw)) o))]> (store s);
            drv := w; calls := calls s ++ [EvSimpleConnectionPool mn mx kw];
            stdout := stdout s |}.
Proof.
  unfold Database.initialize. run.
  destruct (store s !! self) as [o|] eqn:Ho; run; [|discriminate].
  destruct (server o) as [| | | |sd|]; cbn [subscript]; run; try discriminate.
  destruct (dict_get sd "param") as [pv|]; run; [|discriminate].
  rewrite Ho; run.
  destruct pv as [| | | |d|]; cbn [subscript]; run; try discriminate.
  repeat (match goal with
          | |- context [dict_get d ?k] => destruct (dict_get d k); run
          end; try discriminate).
  rewrite Ho; run.
  match goal with |- context [drv_SimpleConnectionPool ?a ?b ?c ?w] =>
    destruct (drv_SimpleConnectionPool a b c w) as [[e|q] w'] eqn:Hw end; run;
    [discriminate|].
  lk. run. lk. run. lk. intros [= <-].
  do 6 eexists. split; [reflexivity|]. split; [exact Hw|]. reflexivity.
Qed.

End DatabaseFacts.

(** ** The exit handler and the [with] statement *)

Section ExitFacts.
Context `{D : Driver}.

Lemma exit_after_fault (s : state) (self : nat) (o : object) (p : pool) (c : conn)
    (et : option string) (e : exn) (tb : option unit) :
  store s !! self = Some o -> connection_pool o = Some p -> connection o = Some c ->
  DatabaseCursor.__exit__ self et (Some e) tb s =
    match drv_rollback c (drv s) with
    | (inl x, w1) =>
        (Raise (DriverError x),
         {| store := store s; drv := w1; calls := calls s ++ [EvRollback c];
            stdout := stdout s ++ [PrintType et; PrintVal (Some e)] |})
    | (inr _, w1) =>
        match drv_putconn p (Some c) w1 with
        | (inl x, w2) =>
            (Raise (DriverError x),
             {| store := store s; drv := w2;
                calls := calls s ++ [EvRollback c; EvPutconn p (Some c)];
                stdout := stdout s ++ [PrintType et; PrintVal (Some e)] |})
        | (inr _, w2) =>
            (Ret VNone,
             {| store := store s; drv := w2;
                calls := calls s ++ [EvRollback c; EvPutconn p (Some c)];
                stdout := stdout s ++ [PrintType et; PrintVal (Some e)] |})
        end
    end.
Proof.
  intros Ho Hp Hc.
  unfold DatabaseCursor.__exit__, Database.return_connection.
  run. rewrite Ho. run. rewrite Hc. run.
  destruct (drv_rollback c (drv s)) as [[x|u] w1]; run;
    rewrite <- ?app_assoc; [reflexivity|].
  repeat (rewrite ?Ho, ?Hc, ?Hp; run).
  destruct (drv_putconn p (Some c) w1) as [[x|u'] w2];
    rewrite <- ?app_assoc; reflexivity.
Qed.

Lemma exit_after_body (s : state) (self : nat) (o : object) (p : pool) (c : conn)
    (k : cur) (et : option string) (tb : option unit) :
  store s !! self = Some o -> connection_pool o = Some p ->
  connection o = Some c -> cursor o = Some k ->
  DatabaseCursor.__exit__ self et None tb s =
    match drv_cursor_close k (drv s) with
    | (inl x, w1) =>
        (Raise (DriverError x),
         {| store := store s; drv := w1; calls := calls s ++ [EvCursorClose k];
            stdout := stdout s |})
    | (inr _, w1) =>
        match drv_commit c w1 with
        | (inl x, w2) =>
            (Raise (DriverError x),
             {| store := store s; drv := w2;
                calls := calls s ++ [EvCursorClose k; EvCommit c];
                stdout := stdout s |})
        | (inr _, w2) =>
            match drv_putconn p (Some c) w2 with
            | (inl x, w3) =>
                (Raise (DriverError x),
                 {| store := store s; drv := w3;
                    calls := calls s ++
                             [EvCursorClose k; EvCommit c; EvPutconn p (Some c)];
                    stdout := stdout s |})
            | (inr _, w3) =>
                (Ret VNone,
                 {| store := store s; drv := w3;
                    calls := calls s ++
                             [EvCursorClose k; EvCommit c; EvPutconn p (Some c)];
                    stdout := stdout s |})
            end
        end
    end.
Proof.
  intros Ho Hp Hc Hk.
  unfold DatabaseCursor.__exit__, Database.return_connection.
  run. rewrite Ho. run. rewrite Hk. run.
  destruct (drv_cursor_close k (drv s)) as [[x|u] w1]; run; [reflexivity|].
  repeat (rewrite ?Ho, ?Hc, ?Hp; run).
  destruct (drv_commit c w1) as [[x|u'] w2]; run;
    rewrite <- ?app_assoc; [reflexivity|].
  repeat (rewrite ?Ho, ?Hc, ?Hp; run).
  destruct (drv_putconn p (Some c) w2) as [[x|u''] w3];
    rewrite <- ?app_assoc; reflexivity.
Qed.

Lemma with_as_entered (s s1 : state) (self : nat) (body : option cur -> M unit)
    (ok : option cur) :
  DatabaseCursor.__enter__ self s = (Ret ok, s1) ->
  DatabaseCursor.with_as self body s =
    match body ok s1 with
    | (Ret _, s2) =>
        (DatabaseCursor.__exit__ self None None None ;;; ret tt) s2
    | (Raise e, s2) =>
        (r <- DatabaseCursor.__exit__ self (Some (exn_class e)) (Some e) (Some tt) ;;
         if truthy r then ret tt else raise e) s2
    end.
Proof. intros H. unfold DatabaseCursor.with_as, bind at 1. rewrite H. reflexivity. Qed.

End ExitFacts.

(** ** No method but the constructor of the cursor raises RuntimeError *)

Section CleanFacts.
Context `{D : Driver}.

Lemma clean_ret {A} (a : A) : clean (ret a).
Proof. intros s e. discriminate. Qed.

Lemma clean_raise {A} (e : exn) : is_RuntimeError e = false -> clean (@raise _ A e).
Proof. intros H s e' [= <-]. exact H. Qed.

Lemma clean_bind {A B} (m : M A) (f : A -> M B) :
  clean m -> (forall a, clean (f a)) -> clean (bind m f).
Proof.
  intros Hm Hf s e. unfold bind. specialize (Hm s).
  destruct (m s) as [[a|e'] s']; cbn in *.
  - apply Hf.
  - intros [= <-]. auto.
Qed.

Lemma clean_load (r : nat) : clean (load r).
Proof.
  intros s e. unfold load. destruct (store s !! r); cbn; [discriminate|].
  intros [= <-]. reflexivity.
Qed.

Lemma clean_attr {A} (f : object -> A) (r : nat) : clean (attr f r).
Proof. apply clean_bind; [apply clean_load | intros; apply clean_ret]. Qed.

Lemma clean_setattr (r : nat) (upd : object -> object) : clean (setattr r upd).
Proof.
  apply clean_bind; [apply clean_load|]. intros o s e. discriminate.
Qed.

Lemma clean_alloc (k : klass) : clean (alloc k).
Proof. intros s e. discriminate. Qed.

Lemma clean_call {A} (ev : event) (f : world -> (dexn + A) * world) :
  clean (call ev f).
Proof.
  intros s e. unfold call. destruct (f (drv s)) as [[x|a] w]; cbn.
  - intros [= <-]. reflexivity.
  - discriminate.
Qed.

Lemma clean_subscript (v : pyval) (k : string) : clean (subscript v k).
Proof.
  destruct v; cbn; try (apply clean_raise; reflexivity).
  destruct (dict_get d k); [apply clean_ret | apply clean_raise; reflexivity].
Qed.

Lemma clean_instance (v : pyval) (a : string) : clean (Database.instance v a).
Proof. destruct v; cbn; first [apply clean_ret | apply clean_raise; reflexivity]. Qed.

Create HintDb clean.
#[local] Hint Resolve clean_ret clean_load clean_attr clean_setattr clean_alloc
  clean_call clean_subscript clean_instance : clean.

Ltac cleanup :=
  repeat first
    [ solve [auto with clean]
    | apply clean_raise; reflexivity
    | progress unfold attr_server, attr_dbname, attr_connection_pool, attr_init,
        attr_database, attr_connection, attr_cursor
    | apply clean_bind; [|intros] ].

Lemma clean_Database_init (self : nat) (server dbname : pyval) :
  clean (Database.__init__ self server dbname).
Proof. unfold Database.__init__. cleanup. Qed.

Lemma clean_Database_new (server dbname : pyval) :
  clean (Database.new server dbname).
Proof. unfold Database.new. cleanup. Qed.

Lemma clean_initialize (self : nat) : clean (Database.initialize self).
Proof. unfold Database.initialize. cleanup. Qed.

Lemma clean_connect_database (self : nat) :
  clean (DatabaseCursor.connect_database self).
Proof.
  unfold DatabaseCursor.connect_database. cleanup.
  destruct (negb _); cleanup.
Qed.

Lemma clean_choose_database (self : nat) (database server dbname : pyval) :
  isinstance_Database database = true \/
  isinstance_dict server && isinstance_str dbname = true ->
  clean (DatabaseCursor.choose_database self database server dbname).
Proof.
  intros H. unfold DatabaseCursor.choose_database.
  destruct (isinstance_Database database); cbn; [cleanup|].
  destruct H as [H|H]; [discriminate|]. rewrite H. cleanup.
Qed.

Lemma clean_cursor_new (database server dbname : pyval) :
  isinstance_Database database = true \/
  isinstance_dict server && isinstance_str dbname = true ->
  clean (DatabaseCursor.new database server dbname).
Proof.
  intros H. unfold DatabaseCursor.new, DatabaseCursor.__init__.
  repeat first
    [ apply clean_Database_init | apply clean_choose_database, H
    | apply clean_connect_database | solve [auto with clean]
    | apply clean_bind; [|intros] ].
Qed.

End CleanFacts.

(** ** The constructor of the cursor *)

Section ConstructorFacts.
Context `{D : Driver}.

Lemma connect_database_returns (s s' : state) (self d : nat) (o od : object) :
  store s !! self = Some o -> database o = VRef d ->
  store s !! d = Some od -> d <> self -> wf_object od = true ->
  DatabaseCursor.connect_database self s = (Ret tt, s') ->
  exists o' od',
    store s' !! self = Some o' /\ database o' = VRef d /\
    store s' !! d = Some od' /\ init od' = true /\ has_pool od' = true /\
    connection_pool o' = connection_pool od' /\
    connection o' = None /\ cursor o' = None.
Proof.
  intros Ho Hdb Hod Hne Hwf. unfold DatabaseCursor.connect_database. run.
  rewrite Ho. run. rewrite Hdb. cbn [Database.instance]. run.
  rewrite Hod. run.
  destruct (init od) eqn:Hi; cbn [negb]; run.
  - rewrite Ho. run. rewrite Hdb. cbn [Database.instance]. run.
    rewrite Hod. run. rewrite Ho. run. lk. run. lk. run. lk.
    intros [= <-]. cbn [store]. do 2 eexists. lk.
    split; [reflexivity|]. split; [exact Hdb|]. split; [exact Hod|].
    unfold wf_object in Hwf. rewrite Hi in Hwf. cbn in Hwf.
    repeat split; auto.
  - rewrite Ho. run. rewrite Hdb. cbn [Database.instance]. run.
    destruct (Database.initialize d s) as [[[]|e] s1] eqn:Hinit; [|discriminate].
    apply initialize_returns in Hinit
      as (od0 & p & mn & mx & kw & w & Hod0 & Hw & ->).
    rewrite Hod in Hod0. injection Hod0 as <-.
    run. lk. rewrite Ho. run. rewrite Hdb. cbn [Database.instance]. run.
    lk. run. lk. rewrite Ho. run. lk. run. lk. run. lk.
    intros [= <-]. cbn [store]. do 2 eexists. lk.
    split; [reflexivity|]. split; [exact Hdb|]. lk.
    split; [reflexivity|]. repeat split; reflexivity.
Qed.


Lemma cursor_new_returns (s s' : state) (db sv dn : pyval)
    (self : nat) :
  wf_store s = true ->
  (forall d, db = VRef d -> d < length (store s)) ->
  DatabaseCursor.new db sv dn s = (Ret self, s') ->
  exists o d od,
    store s' !! self = Some o /\ database o = VRef d /\
    store s' !! d = Some od /\ init od = true /\ has_pool od = true /\
    connection_pool o = connection_pool od.
Proof.
  intros Hwf Hd.
  unfold DatabaseCursor.new, DatabaseCursor.__init__, Database.__init__. run.
  rewrite lookup_fresh. run.
  repeat (rewrite list_lookup_insert_eq by len; run).
  rewrite !list_insert_insert_eq.
  match goal with |- context [DatabaseCursor.choose_database _ _ _ _ ?st] =>
    set (s2 := st) end.
  match goal with s2 := {| store := <[_ := ?x]> _ |} |- _ => set (o2 := x) in * end.
  assert (Hs2 : store s2 !! length (store s) = Some o2).
  { unfold s2. cbn [store]. apply list_lookup_insert_eq. len. }
  destruct (DatabaseCursor.choose_database (length (store s)) db sv dn s2)
    as [[[]|e] s3] eqn:Hch; [|discriminate].
  destruct (DatabaseCursor.connect_database (length (store s)) s3)
    as [[[]|e] s4] eqn:Hco; [|discriminate].
  intros [= <- <-].
  assert (exists o3 d od, store s3 !! length (store s) = Some o3 /\
            database o3 = VRef d /\ store s3 !! d = Some od /\
            d <> length (store s) /\ wf_object od = true)
    as (o3 & d & od & Ho3 & Hdb & Hod & Hne & Hwfd).
  { revert Hch. unfold DatabaseCursor.choose_database.
    destruct (isinstance_Database db) eqn:Hi; cbn [negb].
    - destruct db as [| | | | |d]; try discriminate.
      pose proof (Hd d eq_refl) as Hlt.
      destruct (lookup_lt_is_Some_2 (store s) d Hlt) as [od Hod].
      run. rewrite Hs2. run. intros [= <-]. cbn [store].
      unfold s2. cbn [store]. lk.
      exists (set_database (VRef d) o2), d, od.
      split; [reflexivity|]. split; [reflexivity|].
      rewrite list_lookup_insert_ne by lia.
      rewrite lookup_app_l by lia.
      split; [exact Hod|]. split; [lia|]. eapply wf_store_lookup; eauto.
    - destruct (isinstance_dict sv && isinstance_str dn);
        [|discriminate].
      unfold Database.new, Database.__init__. run.
      rewrite lookup_fresh. run.
      repeat (rewrite list_lookup_insert_eq by len; run).
      rewrite !list_insert_insert_eq.
      assert (Hlen2 : length (store s2) = S (length (store s))).
      { unfold s2. cbn [store]. rewrite length_insert, length_app. cbn. lia. }
      rewrite list_lookup_insert_ne by lia.
      rewrite lookup_app_l by lia. rewrite Hs2. run.
      intros [= <-]. cbn [store].
      do 3 eexists.
      split; [apply list_lookup_insert_eq;
              sizes|].
      split; [reflexivity|].
      split.
      { rewrite list_lookup_insert_ne by sizes.
        apply list_lookup_insert_eq. sizes. }
      split; [sizes|]. reflexivity. }
  destruct (connect_database_returns _ _ _ _ _ _ Ho3 Hdb Hod Hne Hwfd Hco)
    as (o' & od' & H1 & H2 & H3 & H4 & H5 & H6 & _).
  exists o', d, od'. repeat split; assumption.
Qed.

End ConstructorFacts.

(** ** The invariant of the store *)

Section InvariantFacts.
Context `{D : Driver}.

Lemma keeps_ret {A} (a : A) : keeps (ret a).
Proof. intros s H. exact H. Qed.

Lemma keeps_raise {A} (e : exn) : keeps (@raise _ A e).
Proof. intros s H. exact H. Qed.

Lemma keeps_bind {A B} (m : M A) (f : A -> M B) :
  keeps m -> (forall a, keeps (f a)) -> keeps (bind m f).
Proof.
  intros Hm Hf s H. unfold bind. specialize (Hm s H).
  destruct (m s) as [[a|e] s']; cbn in *; [apply Hf|]; exact Hm.
Qed.

Lemma keeps_load (r : nat) : keeps (load r).
Proof. intros s H. unfold load. destruct (store s !! r); exact H. Qed.

Lemma keeps_attr {A} (f : object -> A) (r : nat) : keeps (attr f r).
Proof. apply keeps_bind; [apply keeps_load | intros; apply keeps_ret]. Qed.

Lemma keeps_call {A} (ev : event) (f : world -> (dexn + A) * world) :
  keeps (call ev f).
Proof.
  intros s H. unfold call. destruct (f (drv s)) as [[x|a] w]; exact H.
Qed.

Lemma keeps_print (x : printed) : keeps (print x).
Proof. intros s H. exact H. Qed.

Lemma keeps_subscript (v : pyval) (k : string) : keeps (subscript v k).
Proof.
  destruct v; cbn; try apply keeps_raise.
  destruct (dict_get d k); [apply keeps_ret | apply keeps_raise].
Qed.

Lemma keeps_instance (v : pyval) (a : string) : keeps (Database.instance v a).
Proof. destruct v; cbn; first [apply keeps_ret | apply keeps_raise]. Qed.

Lemma keeps_alloc (k : klass) : keeps (alloc k).
Proof.
  intros s H. unfold alloc. cbn [snd]. apply wf_store_Forall. cbn [store].
  apply Forall_app. split; [apply wf_store_Forall, H|].
  repeat constructor.
Qed.

(** An assignment that keeps the invariant of the object it is made on. *)
Lemma keeps_setattr (r : nat) (upd : object -> object) :
  (forall o, wf_object o = true -> wf_object (upd o) = true) ->
  keeps (setattr r upd).
Proof.
  intros Hu s H. unfold setattr. run.
  destruct (store s !! r) as [o|] eqn:Ho; run; [|exact H].
  apply wf_store_insert; [exact H|]. apply Hu. eapply wf_store_lookup; eauto.
Qed.

(** Two assignments in a row whose result satisfies the invariant, whatever
    the object was: [init] and [connection_pool] are assigned in pairs. *)
Lemma keeps_setattr_pair (r : nat) (u1 u2 : object -> object) :
  (forall o, wf_object (u2 (u1 o)) = true) ->
  keeps (setattr r u1 ;;; setattr r u2).
Proof.
  intros Hu s H. run.
  destruct (store s !! r) as [o|] eqn:Ho; run; [|exact H].
  lk. run. lk. apply wf_store_insert; [exact H|]. apply Hu.
Qed.

Lemma wf_set_connection_pool_Some (p : pool) (o : object) :
  wf_object (set_connection_pool (Some p) o) = true.
Proof. unfold wf_object. cbn. destruct (init o); reflexivity. Qed.

Create HintDb keeps.
#[local] Hint Resolve keeps_ret keeps_raise keeps_load keeps_attr keeps_call
  keeps_print keeps_subscript keeps_instance keeps_alloc : keeps.

Ltac keeping :=
  repeat first
    [ solve [auto with keeps]
    | apply keeps_setattr; solve [intros o Ho; first
        [ exact Ho | reflexivity | apply wf_set_connection_pool_Some ]]
    | apply keeps_setattr_pair; solve [intros o; first
        [ reflexivity | apply wf_set_connection_pool_Some ]]
    | progress unfold attr_server, attr_dbname, attr_connection_pool, attr_init,
        attr_database, attr_connection, attr_cursor
    | match goal with
      | |- keeps (match ?x with _ => _ end) => destruct x
      | |- keeps (if ?x then _ else _) => destruct x
      end
    | apply keeps_bind; [|intros] ].

Lemma keeps_Database_init (self : nat) (sv dn : pyval) :
  keeps (Database.__init__ self sv dn).
Proof. unfold Database.__init__. keeping. Qed.

Lemma keeps_Database_new (sv dn : pyval) : keeps (Database.new sv dn).
Proof. unfold Database.new. keeping. Qed.

Lemma keeps_initialize (self : nat) : keeps (Database.initialize self).
Proof. unfold Database.initialize. keeping. Qed.

Lemma keeps_get_connection (self : nat) : keeps (Database.get_connection self).
Proof. unfold Database.get_connection. keeping. Qed.

Lemma keeps_return_connection (self : nat) (c : option conn) :
  keeps (Database.return_connection self c).
Proof. unfold Database.return_connection. keeping. Qed.

Lemma keeps_close_all_connections (self : nat) :
  keeps (Database.close_all_connections self).
Proof. unfold Database.close_all_connections. keeping. Qed.


Lemma keeps_choose_database (self : nat) (db sv dn : pyval) :
  keeps (DatabaseCursor.choose_database self db sv dn).
Proof.
  unfold DatabaseCursor.choose_database.
  destruct (negb _); [destruct (_ && _)|]; keeping.
Qed.

(** The pool that the cursor object takes is that of an initialized
    database: it is a pool, not [None]. *)
Lemma keeps_connect_database (self : nat) :
  keeps (DatabaseCursor.connect_database self).
Proof.
  intros s Hwf. unfold DatabaseCursor.connect_database. run.
  destruct (store s !! self) as [o|] eqn:Ho; run; [|exact Hwf].
  destruct (database o) as [| | | | |d] eqn:Hdb; cbn [Database.instance]; run;
    try exact Hwf.
  destruct (store s !! d) as [od|] eqn:Hod; run; [|exact Hwf].
  destruct (init od) eqn:Hi; cbn [negb]; run.
  - rewrite Ho. run. rewrite Hdb. cbn [Database.instance]. run.
    rewrite Hod. run. rewrite Ho. run. lk. run. lk. run. lk.
    apply wf_store_insert; [exact Hwf|].
    pose proof (wf_store_lookup _ _ _ Hwf Hod) as Hw.
    unfold wf_object, has_pool in *. rewrite Hi in Hw. cbn in *.
    destruct (connection_pool od); [|discriminate].
    destruct (init o); reflexivity.
  - rewrite Ho. run. rewrite Hdb. cbn [Database.instance]. run.
    pose proof (keeps_initialize d s Hwf) as Hwf1.
    destruct (Database.initialize d s) as [[[]|e] s1] eqn:Hinit;
      cbn [snd] in Hwf1; [|exact Hwf1].
    apply initialize_returns in Hinit
      as (od0 & p & mn & mx & kw & w & Hod0 & Hw & ->).
    rewrite Hod in Hod0. injection Hod0 as <-.
    cbn [store drv calls stdout] in *.
    destruct (decide (d = self)) as [->|Hne].
    + rewrite Ho in Hod. injection Hod as <-.
      lk. run. cbn [database set_init set_connection_pool set_params].
      rewrite Hdb. cbn [Database.instance]. run. lk. run. lk. run. lk. run. lk.
      apply wf_store_Forall. cbn [store]. lk.
      apply Forall_insert; [apply wf_store_Forall, Hwf | reflexivity].
    + lk. rewrite Ho. run. rewrite Hdb. cbn [Database.instance]. run.
      lk. run. lk. rewrite Ho. run. lk. run. lk. run. lk.
      apply wf_store_Forall. cbn [store]. lk.
      repeat apply Forall_insert; [apply wf_store_Forall, Hwf | reflexivity |].
      unfold wf_object, has_pool. cbn. destruct (init o); reflexivity.
Qed.

Lemma keeps_cursor_init (self : nat) (db sv dn : pyval) :
  keeps (DatabaseCursor.__init__ self db sv dn).
Proof.
  unfold DatabaseCursor.__init__.
  repeat first
    [ apply keeps_Database_init | apply keeps_choose_database
    | apply keeps_connect_database
    | apply keeps_setattr; solve [intros o Ho; exact Ho]
    | apply keeps_bind; [|intros] ].
Qed.

Lemma keeps_cursor_new (db sv dn : pyval) :
  keeps (DatabaseCursor.new db sv dn).
Proof.
  unfold DatabaseCursor.new.
  apply keeps_bind; [apply keeps_alloc|]. intros self.
  apply keeps_bind; [apply keeps_cursor_init|]. intros _. apply keeps_ret.
Qed.

Lemma keeps_enter (self : nat) : keeps (DatabaseCursor.__enter__ self).
Proof.
  unfold DatabaseCursor.__enter__.
  apply keeps_bind; [apply keeps_get_connection|]. intros c. keeping.
Qed.

Lemma keeps_exit (self : nat) (et : option string) (ev : option exn)
    (tb : option unit) :
  keeps (DatabaseCursor.__exit__ self et ev tb).
Proof.
  unfold DatabaseCursor.__exit__.
  apply keeps_bind; [destruct ev; keeping|]. intros _.
  apply keeps_bind; [keeping|]. intros sc.
  apply keeps_bind; [apply keeps_return_connection|]. intros _. apply keeps_ret.
Qed.

(** The [with] statement keeps the invariant if its body does. *)
Lemma keeps_with_as (self : nat) (body : option cur -> M unit) :
  (forall k, keeps (body k)) -> keeps (DatabaseCursor.with_as self body).
Proof.
  intros Hb. unfold DatabaseCursor.with_as.
  apply keeps_bind; [apply keeps_enter|]. intros k s1 H1.
  specialize (Hb k s1 H1).
  destruct (body k s1) as [[[]|e] s2]; cbn [snd] in Hb.
  - apply (keeps_bind _ _ (keeps_exit self None None None)
             (fun _ => keeps_ret tt) s2 Hb).
  - refine (keeps_bind _ _ (keeps_exit self _ _ _) _ s2 Hb).
    intros r. destruct (truthy r); [apply keeps_ret | apply keeps_raise].
Qed.

Lemma keeps_Query_new (sv dn dc : pyval) : keeps (Query.new sv dn dc).
Proof.
  unfold Query.new, Query.__init__.
  repeat first
    [ apply keeps_Database_init | apply keeps_alloc | apply keeps_ret
    | apply keeps_setattr; solve [intros o Ho; exact Ho]
    | apply keeps_bind; [|intros] ].
Qed.

End InvariantFacts.

(** ** The psycopg2 model *)

Module Psycopg2Facts.
Import Psycopg2.

Lemma connect_idle_enough (n : nat) (kw : list (string * pyval))
    (idle : list nat) (w : world) :
  n <= slots w ->
  connect_idle n kw idle w =
    (inr (idle ++ seq (length (conns w)) n),
     {| pools := pools w; conns := conns w ++ replicate n fresh_connection;
        cursors := cursors w; slots := slots w - n |}).
Proof.
  revert idle w. induction n as [|n IH]; intros idle w Hn.
  - cbn. rewrite !app_nil_r, Nat.sub_0_r. destruct w; reflexivity.
  - cbn [connect_idle]. unfold connect.
    destruct (slots w) as [|m] eqn:Hs; [lia|].
    rewrite IH by (cbn; lia). cbn [pools conns cursors slots].
    rewrite length_app, <- !app_assoc. cbn [length app replicate seq].
    rewrite Nat.add_1_r. reflexivity.
Qed.

Lemma pools_conn_close (c : nat) (w : world) : pools (conn_close c w) = pools w.
Proof.
  unfold conn_close. destruct (conns w !! c) as [cs|]; [|reflexivity].
  destruct (conn_closed cs); reflexivity.
Qed.

Lemma pools_conn_rollback (c : nat) (w : world) :
  pools (snd (conn_rollback c w)) = pools w.
Proof.
  unfold conn_rollback, conn_end_transaction.
  destruct (conns w !! c) as [cs|]; [|reflexivity].
  destruct (conn_closed cs); [reflexivity|].
  destruct (conn_status cs); reflexivity.
Qed.

Lemma putconn_not_given_out (p : nat) (oc : option nat) (w : world)
    (ps : pool_state) :
  pools w !! p = Some ps ->
  (forall c, oc = Some c -> _rused ps !! c = None) ->
  exists msg, putconn p oc w = (inl (PoolError msg), w).
Proof.
  intros Hp Hc. unfold putconn. rewrite Hp.
  destruct (closed ps); [eauto|].
  destruct oc as [c|]; [|eauto].
  rewrite (Hc c eq_refl). eauto.
Qed.

Lemma putconn_returns (p c : nat) (w w' : world) :
  putconn p (Some c) w = (inr tt, w') ->
  exists ps', pools w' !! p = Some ps' /\ _rused ps' !! c = None.
Proof.
  unfold putconn.
  destruct (pools w !! p) as [ps|] eqn:Hp; [|discriminate].
  destruct (closed ps); [discriminate|].
  destruct (_rused ps !! c) as [key|]; [|discriminate].
  cbv zeta.
  set (keep := if (Z.of_nat (length (_pool ps)) <? minconn ps)%Z then _ else _).
  assert (Hk : pools (snd keep) = pools w).
  { unfold keep. destruct (_ <? _)%Z; cbn [snd]; [|apply pools_conn_close].
    destruct (conns w !! c) as [cs|]; [|reflexivity].
    destruct (conn_closed cs); [reflexivity|].
    destruct (conn_status cs); cbn [snd];
      auto using pools_conn_close, pools_conn_rollback. }
  destruct (_used ps !! key); [|discriminate].
  intros [= <-]. eexists. unfold set_pool, set_pools. cbn [pools].
  rewrite Hk. split.
  - apply list_lookup_insert_eq. eapply lookup_lt_Some, Hp.
  - cbn. apply lookup_delete_eq.
Qed.


Lemma cursors_conn_close (c : nat) (w : world) :
  cursors (conn_close c w) = cursors w.
Proof.
  unfold conn_close. destruct (conns w !! c) as [cs|]; [|reflexivity].
  destruct (conn_closed cs); reflexivity.
Qed.

Lemma cursors_conn_rollback (c : nat) (w : world) :
  cursors (snd (conn_rollback c w)) = cursors w.
Proof.
  unfold conn_rollback, conn_end_transaction.
  destruct (conns w !! c) as [cs|]; [|reflexivity].
  destruct (conn_closed cs); [reflexivity|].
  destruct (conn_status cs); reflexivity.
Qed.

(** [putconn] never touches a cursor. *)
Lemma cursors_putconn (p : nat) (oc : option nat) (w : world) :
  cursors (snd (putconn p oc w)) = cursors w.
Proof.
  unfold putconn.
  destruct (pools w !! p) as [ps|]; [|reflexivity].
  destruct (closed ps); [reflexivity|].
  destruct oc as [c|]; [|reflexivity].
  destruct (_rused ps !! c) as [key|]; [|reflexivity].
  cbv zeta.
  set (keep := if (Z.of_nat (length (_pool ps)) <? minconn ps)%Z then _ else _).
  assert (Hk : cursors (snd keep) = cursors w).
  { unfold keep. destruct (_ <? _)%Z; cbn [snd]; [|apply cursors_conn_close].
    destruct (conns w !! c) as [cs|]; [|reflexivity].
    destruct (conn_closed cs); [reflexivity|].
    destruct (conn_status cs); cbn [snd];
      auto using cursors_conn_close, cursors_conn_rollback. }
  destruct (_used ps !! key); exact Hk.
Qed.

(** After a shutdown the pool is closed, and a closed pool gives out
    nothing: an object that still holds it is refused with [PoolError]. *)
Lemma closeall_closes (p : nat) (w w' : world) :
  closeall p w = (inr tt, w') ->
  exists ps', pools w' !! p = Some ps' /\ closed ps' = true.
Proof.
  unfold closeall.
  destruct (pools w !! p) as [ps|] eqn:Hp; [|discriminate].
  destruct (closed ps); [discriminate|].
  intros [= <-]. exists (set_closed ps). split; [|reflexivity].
  unfold set_pool, set_pools. cbn [pools].
  apply list_lookup_insert_eq.
  assert (Hl : forall l w0, length (pools (foldl (fun w c => conn_close c w) w0 l))
                            = length (pools w0)).
  { induction l as [|c l IH]; intros w0; cbn; [reflexivity|].
    rewrite IH, pools_conn_close. reflexivity. }
  rewrite Hl. eapply lookup_lt_Some, Hp.
Qed.

Lemma getconn_closed (p : nat) (w : world) (ps : pool_state) :
  pools w !! p = Some ps -> closed ps = true ->
  getconn p w = (inl (PoolError "connection pool is closed"), w).
Proof. intros Hp Hc. unfold getconn. rewrite Hp, Hc. reflexivity. Qed.

End Psycopg2Facts.

(** * The claims *)

(** ** The scoped cursor *)

Section ScopeClaims.
Context `{D : Driver}.

(** The releases of the exit handler, on an object that holds a connection
    and a cursor.  The handler calls [return_connection] at most once, on
    what [self.connection] is at that time.  It calls it when the driver
    calls before line 163 return: cursor close and commit without an
    exception, rollback with one.  When commit raises, the handler raises
    that exception of the driver. *)
Lemma exit_releases_once (s : state) (self : nat) (o : object) (p : pool)
    (c : conn) (k : cur) :
  store s !! self = Some o -> connection_pool o = Some p ->
  connection o = Some c -> cursor o = Some k ->
  (forall et ev tb,
     releases (emitted s (snd (DatabaseCursor.__exit__ self et ev tb s))) = [] \/
     releases (emitted s (snd (DatabaseCursor.__exit__ self et ev tb s))) =
       [(p, Some c)]) /\
  (forall et tb w1 w2,
     drv_cursor_close k (drv s) = (inr tt, w1) ->
     drv_commit c w1 = (inr tt, w2) ->
     releases (emitted s (snd (DatabaseCursor.__exit__ self et None tb s))) =
       [(p, Some c)]) /\
  (forall et e tb w1,
     drv_rollback c (drv s) = (inr tt, w1) ->
     releases (emitted s (snd (DatabaseCursor.__exit__ self et (Some e) tb s))) =
       [(p, Some c)]) /\
  (forall et tb w1 x w2,
     drv_cursor_close k (drv s) = (inr tt, w1) ->
     drv_commit c w1 = (inl x, w2) ->
     fst (DatabaseCursor.__exit__ self et None tb s) = Raise (DriverError x)).
Proof.
  intros Ho Hp Hc Hk. repeat split.
  - intros et [e|] tb.
    + rewrite (exit_after_fault _ _ _ _ _ et e tb Ho Hp Hc).
      destruct (drv_rollback c (drv s)) as [[x|u] w1];
        [|destruct (drv_putconn p (Some c) w1) as [[x|u'] w2]];
        (erewrite emitted_app by reflexivity); cbn; auto.
    + rewrite (exit_after_body _ _ _ _ _ _ et tb Ho Hp Hc Hk).
      destruct (drv_cursor_close k (drv s)) as [[x|u] w1];
        [|destruct (drv_commit c w1) as [[x|u'] w2];
          [|destruct (drv_putconn p (Some c) w2) as [[x|u''] w3]]];
        (erewrite emitted_app by reflexivity); cbn; auto.
  - intros et tb w1 w2 H1 H2.
    rewrite (exit_after_body _ _ _ _ _ _ et tb Ho Hp Hc Hk), H1, H2.
    destruct (drv_putconn p (Some c) w2) as [[x|u''] w3];
      (erewrite emitted_app by reflexivity); reflexivity.
  - intros et e tb w1 H1.
    rewrite (exit_after_fault _ _ _ _ _ et e tb Ho Hp Hc), H1.
    destruct (drv_putconn p (Some c) w1) as [[x|u'] w2];
      (erewrite emitted_app by reflexivity); reflexivity.
  - intros et tb w1 x w2 H1 H2.
    rewrite (exit_after_body _ _ _ _ _ _ et tb Ho Hp Hc Hk), H1, H2. reflexivity.
Qed.


(** The calls of the handler after a body that returns.  The cursor close
    comes first; if that returns and the commit returns, the driver calls
    of the handler are cursor close, commit, [putconn], in that order, and
    the block ends normally once [putconn] has returned.  Nothing is said
    here of a commit that raises. *)
Lemma scope_success_order (s s1 s2 : state) (self : nat)
    (body : option cur -> M unit) (ok : option cur) (o : object) (p : pool)
    (c : conn) (k : cur) :
  DatabaseCursor.__enter__ self s = (Ret ok, s1) ->
  body ok s1 = (Ret tt, s2) ->
  store s2 !! self = Some o -> connection_pool o = Some p ->
  connection o = Some c -> cursor o = Some k ->
  (exists rest,
     emitted s2 (snd (DatabaseCursor.with_as self body s)) =
       EvCursorClose k :: rest) /\
  (forall w1 w2,
     drv_cursor_close k (drv s2) = (inr tt, w1) ->
     drv_commit c w1 = (inr tt, w2) ->
     emitted s2 (snd (DatabaseCursor.with_as self body s)) =
       [EvCursorClose k; EvCommit c; EvPutconn p (Some c)]) /\
  (forall w1 w2 w3,
     drv_cursor_close k (drv s2) = (inr tt, w1) ->
     drv_commit c w1 = (inr tt, w2) ->
     drv_putconn p (Some c) w2 = (inr tt, w3) ->
     DatabaseCursor.with_as self body s =
       (Ret tt,
        {| store := store s2; drv := w3;
           calls := calls s2 ++
                    [EvCursorClose k; EvCommit c; EvPutconn p (Some c)];
           stdout := stdout s2 |})).
Proof.
  intros He Hb Ho Hp Hc Hk.
  rewrite (with_as_entered _ _ _ _ _ He), Hb. unfold bind.
  rewrite (exit_after_body _ _ _ _ _ _ None None Ho Hp Hc Hk).
  repeat split.
  - destruct (drv_cursor_close k (drv s2)) as [[x|u] w1];
      [|destruct (drv_commit c w1) as [[x|u'] w2];
        [|destruct (drv_putconn p (Some c) w2) as [[x|u''] w3]]];
      cbn [snd ret]; (erewrite emitted_app by reflexivity); eauto.
  - intros w1 w2 H1 H2. rewrite H1, H2.
    destruct (drv_putconn p (Some c) w2) as [[x|u''] w3];
      cbn [snd ret]; (erewrite emitted_app by reflexivity); reflexivity.
  - intros w1 w2 w3 H1 H2 H3. rewrite H1, H2, H3. reflexivity.
Qed.

(** The calls of the handler after a body that raises.  The handler never
    calls commit and calls rollback first; if the rollback returns, the
    handler goes on to [putconn]; and once that has returned, the [with]
    statement raises the exception of the body again.  Nothing is said
    here of a rollback that raises. *)
Lemma scope_fault_rollback (s s1 s2 : state) (self : nat)
    (body : option cur -> M unit) (ok : option cur) (e : exn) (o : object)
    (p : pool) (c : conn) :
  DatabaseCursor.__enter__ self s = (Ret ok, s1) ->
  body ok s1 = (Raise e, s2) ->
  store s2 !! self = Some o -> connection_pool o = Some p ->
  connection o = Some c ->
  Forall (fun ev => is_commit ev = false)
    (emitted s2 (snd (DatabaseCursor.with_as self body s))) /\
  (exists rest,
     emitted s2 (snd (DatabaseCursor.with_as self body s)) =
       EvRollback c :: rest) /\
  (forall w1,
     drv_rollback c (drv s2) = (inr tt, w1) ->
     emitted s2 (snd (DatabaseCursor.with_as self body s)) =
       [EvRollback c; EvPutconn p (Some c)]) /\
  (forall w1 w2,
     drv_rollback c (drv s2) = (inr tt, w1) ->
     drv_putconn p (Some c) w1 = (inr tt, w2) ->
     DatabaseCursor.with_as self body s =
       (Raise e,
        {| store := store s2; drv := w2;
           calls := calls s2 ++ [EvRollback c; EvPutconn p (Some c)];
           stdout := stdout s2 ++
                     [PrintType (Some (exn_class e)); PrintVal (Some e)] |})).
Proof.
  intros He Hb Ho Hp Hc.
  rewrite (with_as_entered _ _ _ _ _ He), Hb. unfold bind.
  rewrite (exit_after_fault _ _ _ _ _ (Some (exn_class e)) e (Some tt) Ho Hp Hc).
  repeat split.
  - destruct (drv_rollback c (drv s2)) as [[x|u] w1];
      [|destruct (drv_putconn p (Some c) w1) as [[x|u'] w2]];
      cbn [snd truthy raise]; (erewrite emitted_app by reflexivity);
      repeat constructor.
  - destruct (drv_rollback c (drv s2)) as [[x|u] w1];
      [|destruct (drv_putconn p (Some c) w1) as [[x|u'] w2]];
      cbn [snd truthy raise]; (erewrite emitted_app by reflexivity); eauto.
  - intros w1 H1. rewrite H1.
    destruct (drv_putconn p (Some c) w1) as [[x|u'] w2];
      cbn [snd truthy raise]; (erewrite emitted_app by reflexivity); reflexivity.
  - intros w1 w2 H1 H2. rewrite H1, H2. reflexivity.
Qed.

(** C9.  On the failure path the exit handler makes no call that closes a
    cursor and leaves the object, hence its [cursor] attribute, as it was:
    after a rollback that returns, its calls are rollback and [putconn]
    only.  The success path starts with the cursor close. *)
Theorem exit_fault_leaves_cursor_open (s : state) (self : nat) (o : object)
    (p : pool) (c : conn) (k : cur) (et : option string) (e : exn)
    (tb : option unit) :
  store s !! self = Some o -> connection_pool o = Some p ->
  connection o = Some c -> cursor o = Some k ->
  Forall (fun ev => is_cursor_close ev = false)
    (emitted s (snd (DatabaseCursor.__exit__ self et (Some e) tb s))) /\
  store (snd (DatabaseCursor.__exit__ self et (Some e) tb s)) = store s /\
  (forall w1,
     drv_rollback c (drv s) = (inr tt, w1) ->
     emitted s (snd (DatabaseCursor.__exit__ self et (Some e) tb s)) =
       [EvRollback c; EvPutconn p (Some c)]) /\
  (exists rest,
     emitted s (snd (DatabaseCursor.__exit__ self et None tb s)) =
       EvCursorClose k :: rest).
Proof.
  intros Ho Hp Hc Hk.
  rewrite (exit_after_fault _ _ _ _ _ et e tb Ho Hp Hc).
  rewrite (exit_after_body _ _ _ _ _ _ et tb Ho Hp Hc Hk).
  repeat split.
  - destruct (drv_rollback c (drv s)) as [[x|u] w1];
      [|destruct (drv_putconn p (Some c) w1) as [[x|u'] w2]];
      (erewrite emitted_app by reflexivity); repeat constructor.
  - destruct (drv_rollback c (drv s)) as [[x|u] w1];
      [|destruct (drv_putconn p (Some c) w1) as [[x|u'] w2]]; reflexivity.
  - intros w1 H1. rewrite H1.
    destruct (drv_putconn p (Some c) w1) as [[x|u'] w2];
      (erewrite emitted_app by reflexivity); reflexivity.
  - destruct (drv_cursor_close k (drv s)) as [[x|u] w1];
      [|destruct (drv_commit c w1) as [[x|u'] w2];
        [|destruct (drv_putconn p (Some c) w2) as [[x|u''] w3]]];
      (erewrite emitted_app by reflexivity); eauto.
Qed.

(** Where the handler stops.  For every driver, a cursor close, a commit
    or a rollback that raises ends the handler there: line 163 is not
    reached, the log holds the calls made so far and no [putconn], and the
    exception of the driver is the outcome. *)
Lemma exit_stops_at_failure (s : state) (self : nat) (o : object) (p : pool)
    (c : conn) (k : cur) (et : option string) (tb : option unit) :
  store s !! self = Some o -> connection_pool o = Some p ->
  connection o = Some c -> cursor o = Some k ->
  (forall x w1,
     drv_cursor_close k (drv s) = (inl x, w1) ->
     DatabaseCursor.__exit__ self et None tb s =
       (Raise (DriverError x),
        {| store := store s; drv := w1; calls := calls s ++ [EvCursorClose k];
           stdout := stdout s |})) /\
  (forall w1 x w2,
     drv_cursor_close k (drv s) = (inr tt, w1) ->
     drv_commit c w1 = (inl x, w2) ->
     DatabaseCursor.__exit__ self et None tb s =
       (Raise (DriverError x),
        {| store := store s; drv := w2;
           calls := calls s ++ [EvCursorClose k; EvCommit c];
           stdout := stdout s |})) /\
  (forall e x w1,
     drv_rollback c (drv s) = (inl x, w1) ->
     DatabaseCursor.__exit__ self et (Some e) tb s =
       (Raise (DriverError x),
        {| store := store s; drv := w1; calls := calls s ++ [EvRollback c];
           stdout := stdout s ++ [PrintType et; PrintVal (Some e)] |})).
Proof.
  intros Ho Hp Hc Hk. repeat split.
  - intros x w1 H1.
    rewrite (exit_after_body _ _ _ _ _ _ et tb Ho Hp Hc Hk), H1. reflexivity.
  - intros w1 x w2 H1 H2.
    rewrite (exit_after_body _ _ _ _ _ _ et tb Ho Hp Hc Hk), H1, H2.
    reflexivity.
  - intros e x w1 H1.
    rewrite (exit_after_fault _ _ _ _ _ et e tb Ho Hp Hc), H1. reflexivity.
Qed.
End ScopeClaims.

(** ** The pool manager *)

Section DatabaseClaims.
Context `{D : Driver}.

(** C5, as the code has it.  Once [close_all_connections] has returned on an
    object, [get_connection] on that object raises [AttributeError], the
    pool attribute being [None], and changes nothing: so does every later
    call. *)
Theorem acquire_after_shutdown (s s1 : state) (self : nat) :
  Database.close_all_connections self s = (Ret tt, s1) ->
  forall n : nat,
    Database.get_connection self
      (Nat.iter n (fun st => snd (Database.get_connection self st)) s1) =
    (Raise (AttributeError "NoneType" "getconn"), s1).
Proof.
  intros H.
  destruct (close_all_connections_inv _ _ _ H)
    as (o & p & w & Ho & Hp & Hw & ->).
  assert (Hget : forall st,
            st = {| store := <[self := set_connection_pool None
                                          (set_init false o)]> (store s);
                    drv := w; calls := calls s ++ [EvCloseall p];
                    stdout := stdout s |} ->
            Database.get_connection self st =
              (Raise (AttributeError "NoneType" "getconn"), st)).
  { intros st ->. eapply get_connection_no_pool.
    - cbn. eapply lookup_insert_here, Ho.
    - reflexivity. }
  induction n as [|n IH].
  - apply Hget. reflexivity.
  - change (Nat.iter (S n) ?f ?x) with (f (Nat.iter n f x)).
    cbv beta. rewrite IH. apply Hget. reflexivity.
Qed.

(** C8, as the code has it.  Once [close_all_connections] has returned on an
    object, a second call raises [AttributeError] and changes nothing: the
    object stays as the first call left it, [init] false and no pool. *)
Theorem second_shutdown (s s1 : state) (self : nat) :
  Database.close_all_connections self s = (Ret tt, s1) ->
  Database.close_all_connections self s1 =
    (Raise (AttributeError "NoneType" "closeall"), s1) /\
  exists o1,
    store s1 !! self = Some o1 /\ init o1 = false /\ connection_pool o1 = None.
Proof.
  intros H.
  destruct (close_all_connections_inv _ _ _ H)
    as (o & p & w & Ho & Hp & Hw & ->).
  split.
  - eapply close_all_connections_no_pool.
    + cbn. eapply lookup_insert_here, Ho.
    + reflexivity.
  - eexists. split; [cbn; eapply lookup_insert_here, Ho|]. split; reflexivity.
Qed.

(** C7, as the code has it.  [initialize] raises [KeyError] for the first of
    port, host, user, password, minconn, maxconn that [server['param']]
    lacks, before any call to the driver.  With the six keys present it
    checks nothing: the two bounds and the connection parameters, the
    database name among them whatever it is, go to the pool constructor of
    the driver as they are, and [initialize] raises exactly when the
    constructor does, with its exception. *)
Theorem initialize_checks (s : state) (self : nat) (o : object)
    (sd d : list (string * pyval)) :
  store s !! self = Some o -> server o = VDict sd ->
  dict_get sd "param" = Some (VDict d) ->
  (forall k,
     first_missing d required_keys = Some k ->
     Database.initialize self s = (Raise (KeyError k), s)) /\
  (first_missing d required_keys = None ->
   emitted s (snd (Database.initialize self s)) =
     [EvSimpleConnectionPool (item d "minconn") (item d "maxconn")
        (connection_params_of d (dbname o))] /\
   fst (Database.initialize self s) =
     match fst (drv_SimpleConnectionPool (item d "minconn") (item d "maxconn")
                  (connection_params_of d (dbname o)) (drv s)) with
     | inl e => Raise (DriverError e)
     | inr _ => Ret tt
     end).
Proof.
  intros Ho Hs Hp. split.
  - intros k Hk. eapply initialize_missing_key; eauto.
  - intros Hk. rewrite (initialize_all_keys _ _ _ _ _ Ho Hs Hp Hk). cbv zeta.
    destruct (drv_SimpleConnectionPool _ _ _ _) as [[e|p] w];
      (split; [apply emitted_app|]); reflexivity.
Qed.

(** C10.  [DatabaseCursor(database, server, dbname)] raises [RuntimeError]
    exactly when [database] is no [Database] instance and [server] is no
    dict or [dbname] is no str.  When it returns, the database that the new
    object works on is initialized: its [init] is true and it has a pool,
    which is also the pool of the new object. *)
Theorem cursor_constructor (s : state) (db sv dn : pyval) :
  wf_store s = true ->
  (forall d, db = VRef d -> d < length (store s)) ->
  ((exists msg,
      fst (DatabaseCursor.new db sv dn s) = Raise (RuntimeError msg)) <->
   isinstance_Database db = false /\
   (isinstance_dict sv = false \/ isinstance_str dn = false)) /\
  (forall self,
     fst (DatabaseCursor.new db sv dn s) = Ret self ->
     exists o d od,
       store (snd (DatabaseCursor.new db sv dn s)) !! self = Some o /\
       database o = VRef d /\
       store (snd (DatabaseCursor.new db sv dn s)) !! d = Some od /\
       init od = true /\ has_pool od = true /\
       connection_pool o = connection_pool od).
Proof.
  intros Hwf Hd. split; [split|].
  - intros [msg Hr].
    destruct (isinstance_Database db) eqn:Hi.
    + apply (clean_cursor_new db sv dn) in Hr; [discriminate|].
      left. exact Hi.
    + split; [reflexivity|].
      destruct (isinstance_dict sv) eqn:H1; [|left; reflexivity].
      destruct (isinstance_str dn) eqn:H2; [|right; reflexivity].
      apply (clean_cursor_new db sv dn) in Hr; [discriminate|].
      right. rewrite H1, H2. reflexivity.
  - intros [Hi Hc]. exists "No parameters for unknown database".
    assert (Hb : isinstance_dict sv && isinstance_str dn = false).
    { destruct Hc as [-> | ->]; [reflexivity | apply andb_false_r]. }
    unfold DatabaseCursor.new, DatabaseCursor.__init__, Database.__init__,
      DatabaseCursor.choose_database.
    rewrite Hi, Hb. cbn [negb]. run.
    rewrite lookup_fresh. run.
    repeat (rewrite list_lookup_insert_eq by len; run).
    reflexivity.
  - intros self Hr.
    destruct (DatabaseCursor.new db sv dn s) as [r s'] eqn:Hn.
    cbn [fst snd] in *. subst r.
    eapply cursor_new_returns; eauto.
Qed.

End DatabaseClaims.

(** ** The pool of the driver *)

(** C4.  For a configuration with all its keys and [0 <= min <= max], on a
    server that accepts [min] connections, [initialize] returns after one
    call to the driver, the pool constructor: the object is initialized,
    and its pool holds exactly [min] connections, all new, all idle, none
    given out. *)
Theorem initialize_min_idle (s : state) (self : nat) (o : object)
    (sd d : list (string * pyval)) (mn mx : Z) :
  store s !! self = Some o -> server o = VDict sd ->
  dict_get sd "param" = Some (VDict d) ->
  first_missing d required_keys = None ->
  dict_get d "minconn" = Some (VInt mn) ->
  dict_get d "maxconn" = Some (VInt mx) ->
  (0 <= mn <= mx)%Z ->
  Z.to_nat mn <= Psycopg2.slots (drv s) ->
  exists s' o' ps,
    Database.initialize self s = (Ret tt, s') /\
    emitted s s' =
      [EvSimpleConnectionPool (VInt mn) (VInt mx)
         (connection_params_of d (dbname o))] /\
    store s' !! self = Some o' /\ init o' = true /\
    connection_pool o' = Some (length (Psycopg2.pools (drv s))) /\
    Psycopg2.pools (drv s') !! length (Psycopg2.pools (drv s)) = Some ps /\
    Psycopg2.counts ps = (Z.to_nat mn, 0, Z.to_nat mn) /\
    Psycopg2._pool ps =
      seq (length (Psycopg2.conns (drv s))) (Z.to_nat mn) /\
    Psycopg2.conns (drv s') =
      Psycopg2.conns (drv s) ++
      replicate (Z.to_nat mn) Psycopg2.fresh_connection.
Proof.
  intros Ho Hs Hp Hk Hmn Hmx Hb Hsl.
  rewrite (initialize_all_keys _ _ _ _ _ Ho Hs Hp Hk). cbv zeta.
  assert (H1 : item d "minconn" = VInt mn) by (unfold item; rewrite Hmn; reflexivity).
  assert (H2 : item d "maxconn" = VInt mx) by (unfold item; rewrite Hmx; reflexivity).
  rewrite H1, H2.
  cbn [drv_SimpleConnectionPool psycopg2].
  unfold Psycopg2.SimpleConnectionPool. cbn [Psycopg2.py_int].
  rewrite (Psycopg2Facts.connect_idle_enough _ _ _ _ Hsl).
  cbn [Psycopg2.pools Psycopg2.set_pools Psycopg2.conns app].
  do 3 eexists.
  split; [reflexivity|].
  split; [apply emitted_app; reflexivity|].
  cbn [store drv].
  split; [eapply lookup_insert_here, Ho|].
  split; [reflexivity|]. split; [reflexivity|].
  split; [apply list_lookup_middle; reflexivity|].
  split; [|split; reflexivity].
  unfold Psycopg2.counts. cbn [Psycopg2._pool Psycopg2._used].
  rewrite length_seq, map_size_empty, Nat.add_0_r. reflexivity.
Qed.

(** C6, as the psycopg2 pool has it.  [return_connection] of an object that
    the pool has not given out -- a connection of another pool, one that
    is idle in the pool, any other object -- raises the [PoolError] of the
    driver and leaves the driver's world, hence the counts of the pool, as
    they were; and after a [return_connection] that returned, a second one
    of the same connection is such a call.  The pool keeps no record of
    the releases themselves: what it refuses is what it does not hold as
    given out at the time of the call. *)
Theorem return_connection_not_given_out (s : state) (self : nat) (o : object)
    (p : nat) (ps : Psycopg2.pool_state) :
  store s !! self = Some o -> connection_pool o = Some p ->
  Psycopg2.pools (drv s) !! p = Some ps ->
  (forall oc,
     (forall c, oc = Some c -> Psycopg2.given_out ps c = false) ->
     (exists msg,
        Database.return_connection self oc s =
          (Raise (DriverError (Psycopg2.PoolError msg)),
           {| store := store s; drv := drv s;
              calls := calls s ++ [EvPutconn p oc]; stdout := stdout s |})) /\
     Psycopg2.counts <$>
       Psycopg2.pools (drv (snd (Database.return_connection self oc s))) !! p =
     Some (Psycopg2.counts ps)) /\
  (forall c s1,
     Database.return_connection self (Some c) s = (Ret tt, s1) ->
     exists msg,
       Database.return_connection self (Some c) s1 =
         (Raise (DriverError (Psycopg2.PoolError msg)),
          {| store := store s1; drv := drv s1;
             calls := calls s1 ++ [EvPutconn p (Some c)];
             stdout := stdout s1 |})).
Proof.
  intros Ho Hp Hps.
  assert (Hrun : forall oc st, store st !! self = Some o ->
            Database.return_connection self oc st =
              let '(r, w) := Psycopg2.putconn p oc (drv st) in
              (match r with
               | inr a => Ret a
               | inl e => Raise (DriverError e)
               end,
               {| store := store st; drv := w;
                  calls := calls st ++ [EvPutconn p oc];
                  stdout := stdout st |})).
  { intros oc st Hst. unfold Database.return_connection. run.
    rewrite Hst. run. rewrite Hp. run.
    cbn [drv_putconn psycopg2].
    destruct (Psycopg2.putconn p oc (drv st)) as [[e|a] w]; reflexivity. }
  split.
  - intros oc Hoc.
    destruct (Psycopg2Facts.putconn_not_given_out p oc (drv s) ps Hps)
      as [msg Hmsg].
    { intros c Hc. specialize (Hoc c Hc). unfold Psycopg2.given_out in Hoc.
      destruct (Psycopg2._rused ps !! c); [discriminate | reflexivity]. }
    rewrite (Hrun oc s Ho), Hmsg. cbn [snd drv].
    split; [exists msg; reflexivity|]. rewrite Hps. reflexivity.
  - intros c s1. rewrite (Hrun (Some c) s Ho).
    destruct (Psycopg2.putconn p (Some c) (drv s)) as [[e|[]] w] eqn:Hput;
      [discriminate|].
    intros [= <-]. cbn [store drv calls stdout].
    destruct (Psycopg2Facts.putconn_returns _ _ _ _ Hput) as (ps' & Hps' & Hr).
    destruct (Psycopg2Facts.putconn_not_given_out p (Some c) w ps' Hps')
      as [msg Hmsg].
    { intros c' [= <-]. exact Hr. }
    exists msg.
    rewrite Hrun by exact Ho.
    cbn [drv]. rewrite Hmsg. reflexivity.
Qed.

(** ** The same, seen from the psycopg2 model *)

(** C9, for the psycopg2 model: the handler of a scope whose body raised
    leaves every cursor of the driver as it was, so the cursor of the scope
    is as open as the body left it. *)
Lemma exit_fault_cursors_untouched (s : state) (self : nat) (o : object)
    (p c : nat) (et : option string) (e : exn) (tb : option unit) :
  store s !! self = Some o -> connection_pool o = Some p ->
  connection o = Some c ->
  Psycopg2.cursors (drv (snd (DatabaseCursor.__exit__ self et (Some e) tb s))) =
  Psycopg2.cursors (drv s).
Proof.
  intros Ho Hp Hc. rewrite (exit_after_fault _ _ _ _ _ et e tb Ho Hp Hc).
  cbn [drv_rollback drv_putconn psycopg2].
  pose proof (Psycopg2Facts.cursors_conn_rollback c (drv s)) as H1.
  destruct (Psycopg2.conn_rollback c (drv s)) as [[x|u] w1]; cbn [snd] in *;
    [exact H1|].
  match goal with
  | |- context [Psycopg2.putconn ?a ?b ?w] =>
      pose proof (Psycopg2Facts.cursors_putconn a b w) as H2;
      destruct (Psycopg2.putconn a b w) as [[x|u'] w2]
  end; cbn [snd drv] in *; rewrite H2; exact H1.
Qed.

(** C5, for the psycopg2 model: an object that still holds the pool after
    its shutdown, as a cursor object made before does, is refused by the
    closed pool with the [PoolError] of the driver. *)
Lemma acquire_from_closed_pool (s s1 : state) (self other : nat)
    (o oo : object) (p : nat) :
  store s !! self = Some o -> connection_pool o = Some p ->
  Database.close_all_connections self s = (Ret tt, s1) ->
  store s1 !! other = Some oo -> connection_pool oo = Some p ->
  fst (Database.get_connection other s1) =
  Raise (DriverError (Psycopg2.PoolError "connection pool is closed")).
Proof.
  intros Ho Hp Hclose Hoo Hpo.
  destruct (close_all_connections_inv _ _ _ Hclose)
    as (o' & p' & w & Ho' & Hp' & Hw & ->).
  rewrite Ho in Ho'. injection Ho' as <-.
  rewrite Hp in Hp'. injection Hp' as <-.
  cbn [drv_closeall psycopg2] in Hw.
  destruct (Psycopg2Facts.closeall_closes _ _ _ Hw) as (ps' & Hps' & Hcl).
  cbn [store] in Hoo.
  unfold Database.get_connection. run. rewrite Hoo. run. rewrite Hpo. run.
  cbn [drv_getconn psycopg2].
  rewrite (Psycopg2Facts.getconn_closed _ _ _ Hps' Hcl). reflexivity.
Qed.

(** * The claims on a session *)

(** The statements above, taken at the session of [Session]: a server with
    ten slots, the configuration of the docstring with two connections at
    least and five at most; and the scopes of that session in which the
    exit handler does not get to its release. *)

(** The releases of the handler on the scope whose body executed a
    statement: one, of connection 1 to pool 0. *)
Lemma exit_releases_once_witness :
  releases
    (emitted Session.s_body_ok
       (snd (DatabaseCursor.__exit__ 0 None None None Session.s_body_ok))) =
  [(0, Some 1)].
Proof.
  refine (proj1 (proj2 (exit_releases_once Session.s_body_ok 0 _ 0 1 0
                          eq_refl eq_refl eq_refl eq_refl))
            None None _ _ eq_refl eq_refl).
Defined.

(** C1.  The connection is not released on every exit path.  In the scope
    whose body executes a statement and then loses its connection to the
    server, the entry has taken connection 1 from pool 0 and the commit of
    the handler raises the driver's [OperationalError]; the whole [with]
    statement makes no [putconn] call, and the pool still counts the
    connection as given out: one idle, one in use.  The same holds when
    that body raises and the rollback fails.  Line 163 is not reached on
    either path. *)
Lemma commit_failure_leaks_connection :
  fst (DatabaseCursor.with_as 0 Session.body_stmt_dropped Session.s_cursor) =
    Raise (DriverError
             (Psycopg2.OperationalError
                "server closed the connection unexpectedly")) /\
  emitted Session.s_cursor
    (snd (DatabaseCursor.with_as 0 Session.body_stmt_dropped Session.s_cursor)) =
    [EvGetconn 0; EvCursor 1; EvCursorClose 0; EvCommit 1] /\
  releases
    (emitted Session.s_cursor
       (snd (DatabaseCursor.with_as 0 Session.body_stmt_dropped
               Session.s_cursor))) = [] /\
  (fun ps => (Psycopg2.counts ps, Psycopg2.given_out ps 1)) <$>
    Psycopg2.pools
      (drv (snd (DatabaseCursor.with_as 0 Session.body_stmt_dropped
                   Session.s_cursor))) !! 0 =
    Some ((1, 1, 2), true) /\
  releases
    (emitted Session.s_cursor
       (snd (DatabaseCursor.with_as 0 Session.body_stmt_dropped_raises
               Session.s_cursor))) = [] /\
  (fun ps => (Psycopg2.counts ps, Psycopg2.given_out ps 1)) <$>
    Psycopg2.pools
      (drv (snd (DatabaseCursor.with_as 0 Session.body_stmt_dropped_raises
                   Session.s_cursor))) !! 0 =
    Some ((1, 1, 2), true).
Proof. repeat split; reflexivity. Qed.

(** C2.  The release does not follow in every scope whose body completes.
    The body that executes a statement and loses its connection returns;
    the handler closes cursor 0 and calls commit on connection 1, the
    commit raises, and the handler ends there: its calls are these two, no
    [putconn] among them, and the [with] statement raises the exception of
    the commit. *)
Lemma commit_failure_skips_release :
  DatabaseCursor.__enter__ 0 Session.s_cursor =
    (Ret (Some 0), Session.s_entered) /\
  Session.body_stmt_dropped (Some 0) Session.s_entered =
    (Ret tt, Session.s_body_stmt_dropped) /\
  emitted Session.s_body_stmt_dropped
    (snd (DatabaseCursor.with_as 0 Session.body_stmt_dropped Session.s_cursor)) =
    [EvCursorClose 0; EvCommit 1] /\
  DatabaseCursor.__exit__ 0 None None None Session.s_body_stmt_dropped =
    (Raise (DriverError
              (Psycopg2.OperationalError
                 "server closed the connection unexpectedly")),
     snd (DatabaseCursor.with_as 0 Session.body_stmt_dropped Session.s_cursor)).
Proof. repeat split; reflexivity. Qed.

(** The order of the calls on the scope whose body executed a statement. *)
Lemma scope_success_order_witness :
  emitted Session.s_body_ok
    (snd (DatabaseCursor.with_as 0 Session.body_ok Session.s_cursor)) =
  [EvCursorClose 0; EvCommit 1; EvPutconn 0 (Some 1)].
Proof.
  refine (proj1 (proj2 (scope_success_order Session.s_cursor Session.s_entered
                          Session.s_body_ok 0 Session.body_ok (Some 0) _ 0 1 0
                          eq_refl eq_refl eq_refl eq_refl eq_refl eq_refl))
            _ _ eq_refl eq_refl).
Defined.

(** C3.  The fault of the body does not reach the caller of every scope
    whose body raises, and the connection is not released in every such
    scope.  The body that executes a statement, loses its connection and
    raises [ValueError] makes the handler print and call rollback on
    connection 1; the rollback raises, the handler ends there without a
    [putconn], and the [with] statement raises the [OperationalError] of
    the rollback, not the [ValueError]. *)
Lemma rollback_failure_replaces_fault :
  Session.body_stmt_dropped_raises (Some 0) Session.s_entered =
    (Raise (OtherError "ValueError" "boom"),
     Session.s_body_stmt_dropped_raises) /\
  fst (DatabaseCursor.with_as 0 Session.body_stmt_dropped_raises
         Session.s_cursor) =
    Raise (DriverError
             (Psycopg2.OperationalError
                "server closed the connection unexpectedly")) /\
  fst (DatabaseCursor.with_as 0 Session.body_stmt_dropped_raises
         Session.s_cursor) <>
    Raise (OtherError "ValueError" "boom") /\
  emitted Session.s_body_stmt_dropped_raises
    (snd (DatabaseCursor.with_as 0 Session.body_stmt_dropped_raises
            Session.s_cursor)) = [EvRollback 1] /\
  stdout (snd (DatabaseCursor.with_as 0 Session.body_stmt_dropped_raises
                 Session.s_cursor)) =
    [PrintType (Some "ValueError");
     PrintVal (Some (OtherError "ValueError" "boom"))].
Proof.
  split; [reflexivity|]. split; [reflexivity|].
  split; [cbn; discriminate|]. split; reflexivity.
Qed.

(** The scope whose body raised, with a rollback that returns: the caller
    gets the exception of the body. *)
Lemma scope_fault_rollback_witness :
  fst (DatabaseCursor.with_as 0 Session.body_raises Session.s_cursor) =
  Raise (OtherError "ValueError" "boom").
Proof.
  refine (f_equal fst
            (proj2 (proj2 (proj2
               (scope_fault_rollback Session.s_cursor Session.s_entered
                  Session.s_entered 0 Session.body_raises (Some 0)
                  (OtherError "ValueError" "boom") _ 0 1
                  eq_refl eq_refl eq_refl eq_refl eq_refl)))
               _ _ eq_refl eq_refl)).
Defined.

(** C9 on the same scope: the handler called rollback and [putconn], and
    nothing on cursor 0. *)
Lemma exit_fault_leaves_cursor_open_witness :
  emitted Session.s_entered
    (snd (DatabaseCursor.__exit__ 0 (Some "ValueError")
            (Some (OtherError "ValueError" "boom")) (Some tt)
            Session.s_entered)) =
  [EvRollback 1; EvPutconn 0 (Some 1)].
Proof.
  refine (proj1 (proj2 (proj2
            (exit_fault_leaves_cursor_open Session.s_entered 0 _ 0 1 0
               (Some "ValueError") (OtherError "ValueError" "boom") (Some tt)
               eq_refl eq_refl eq_refl eq_refl)))
            _ eq_refl).
Defined.

(** C4 on the configuration with two connections at least: two idle, none
    in use, two in all. *)
Lemma initialize_min_idle_witness :
  fst (Database.initialize 0 Session.s_new) = Ret tt /\
  Psycopg2.counts <$>
    Psycopg2.pools (drv (snd (Database.initialize 0 Session.s_new))) !! 0 =
  Some (2, 0, 2).
Proof.
  destruct (initialize_min_idle Session.s_new 0 _ _ _ 2 5
              eq_refl eq_refl eq_refl eq_refl eq_refl eq_refl
              ltac:(lia) ltac:(vm_compute; lia))
    as (s' & o' & ps & Hr & _ & _ & _ & _ & Hps & Hc & _).
  rewrite Hr. cbn [fst snd]. split; [reflexivity|].
  change (length (Psycopg2.pools (drv Session.s_new))) with 0 in Hps.
  rewrite Hps. cbn [fmap option_fmap option_map]. rewrite Hc. reflexivity.
Defined.

(** C5 on the initialized database, after its shutdown. *)
Lemma acquire_after_shutdown_witness :
  fst (Database.get_connection 0 Session.s_shut) =
  Raise (AttributeError "NoneType" "getconn").
Proof.
  exact (f_equal fst
           (acquire_after_shutdown Session.s_db Session.s_shut 0 eq_refl 0)).
Defined.

(** C5 as the specification has it fails there: the shutdown returns, and
    the acquire that follows raises [AttributeError], not a
    [PoolClosedError]. *)
Lemma acquire_after_shutdown_attribute_error :
  fst (Database.close_all_connections 0 Session.s_db) = Ret tt /\
  fst (Database.get_connection 0
         (snd (Database.close_all_connections 0 Session.s_db))) =
    Raise (AttributeError "NoneType" "getconn") /\
  exn_class (AttributeError "NoneType" "getconn") <> "PoolClosedError".
Proof.
  split; [reflexivity|]. split; [reflexivity|].
  cbn. discriminate.
Qed.

(** C6 on connection 0, which pool 0 holds idle and has not given out. *)
Lemma return_connection_not_given_out_witness :
  Psycopg2.counts <$>
    Psycopg2.pools
      (drv (snd (Database.return_connection 0 (Some 0) Session.s_db))) !! 0 =
  Some (2, 0, 2).
Proof.
  refine (proj2 (proj1 (return_connection_not_given_out Session.s_db 0 _ 0 _
                          eq_refl eq_refl eq_refl) (Some 0) _)).
  intros c [= <-]. reflexivity.
Defined.

(** C6 as the specification has it fails twice.  On the name of the
    error: the release of the idle connection 0 raises the [PoolError] of
    psycopg2, and so does the second release of a connection that was given
    out and put back.  And on a connection that was released and given out
    again: connection 1, put back by its first holder, is handed to a
    second one; the pool has it as given out, so a second release by the
    first holder returns and moves the counts from one idle and one in use
    to two idle. *)
Lemma return_connection_pool_error :
  fst (Database.return_connection 0 (Some 0) Session.s_db) =
    Raise (DriverError
             (Psycopg2.PoolError "trying to put unkeyed connection")) /\
  fst ((c <- Database.get_connection 0 ;;
        Database.return_connection 0 (Some c) ;;;
        Database.return_connection 0 (Some c)) Session.s_db) =
    Raise (DriverError
             (Psycopg2.PoolError "trying to put unkeyed connection")) /\
  exn_class
    (DriverError (Psycopg2.PoolError "trying to put unkeyed connection")) <>
  "InvalidConnectionError" /\
  (c <- Database.get_connection 0 ;;
   Database.return_connection 0 (Some c) ;;;
   c' <- Database.get_connection 0 ;;
   ret (c, c')) Session.s_db = (Ret (1, 1), Session.s_given_again) /\
  Psycopg2.counts <$> Psycopg2.pools (drv Session.s_given_again) !! 0 =
    Some (1, 1, 2) /\
  fst (Database.return_connection 0 (Some 1) Session.s_given_again) = Ret tt /\
  Psycopg2.counts <$>
    Psycopg2.pools
      (drv (snd (Database.return_connection 0 (Some 1) Session.s_given_again)))
      !! 0 =
    Some (2, 0, 2).
Proof.
  split; [reflexivity|]. split; [reflexivity|].
  split; [cbn; discriminate|]. repeat split; reflexivity.
Qed.

(** C7 on the configuration without host. *)
Lemma initialize_checks_witness :
  Database.initialize 0 Session.s_no_host =
  (Raise (KeyError "host"), Session.s_no_host).
Proof.
  exact (proj1 (initialize_checks Session.s_no_host 0 _ _ _
                  eq_refl eq_refl eq_refl) "host" eq_refl).
Defined.

(** C7 as the specification has it fails three times: without host the
    error is a [KeyError], no [ConfigurationError]; with five connections
    at least and two at most, and with a negative minimum, there is no
    error at all: the psycopg2 pool is made, with five idle connections and
    with none. *)
Lemma initialize_unchecked_config :
  fst (Database.initialize 0 Session.s_no_host) = Raise (KeyError "host") /\
  exn_class (KeyError "host") <> "ConfigurationError" /\
  fst (Database.initialize 0 Session.s_min_above_max) = Ret tt /\
  Psycopg2.counts <$>
    Psycopg2.pools
      (drv (snd (Database.initialize 0 Session.s_min_above_max))) !! 0 =
    Some (5, 0, 5) /\
  fst (Database.initialize 0 Session.s_min_negative) = Ret tt /\
  Psycopg2.counts <$>
    Psycopg2.pools
      (drv (snd (Database.initialize 0 Session.s_min_negative))) !! 0 =
    Some (0, 0, 0).
Proof.
  split; [reflexivity|]. split; [cbn; discriminate|].
  repeat split; reflexivity.
Qed.

(** C8 on the initialized database, after its shutdown. *)
Lemma second_shutdown_witness :
  Database.close_all_connections 0 Session.s_shut =
  (Raise (AttributeError "NoneType" "closeall"), Session.s_shut).
Proof.
  exact (proj1 (second_shutdown Session.s_db Session.s_shut 0 eq_refl)).
Defined.

(** C8 as the specification has it fails there: the second shutdown
    faults. *)
Lemma second_shutdown_faults :
  fst (Database.close_all_connections 0 Session.s_db) = Ret tt /\
  fst (Database.close_all_connections 0
         (snd (Database.close_all_connections 0 Session.s_db))) =
  Raise (AttributeError "NoneType" "closeall").
Proof. split; reflexivity. Qed.

(** C10 on the construction from a configuration: object 0 is the cursor
    object, object 1 the database made for it, initialized and with the
    pool that the cursor object has taken. *)
Lemma cursor_constructor_witness :
  fst (DatabaseCursor.new VNone (Session.config 2 5) (VStr "db") Session.s0) =
    Ret 0 /\
  init <$> store Session.s_cursor !! 1 = Some true /\
  has_pool <$> store Session.s_cursor !! 1 = Some true.
Proof.
  assert (Hd : forall d : nat, VNone = VRef d -> d < length (store Session.s0))
    by (intros d; discriminate).
  destruct (proj2 (cursor_constructor Session.s0 VNone (Session.config 2 5)
                     (VStr "db") eq_refl Hd) 0 eq_refl)
    as (o & d & od & Ho & Hdb & Hod & Hi & Hp & _).
  split; [reflexivity|].
  change (snd (DatabaseCursor.new VNone (Session.config 2 5) (VStr "db")
                 Session.s0)) with Session.s_cursor in Ho, Hod.
  assert (d = 1) as ->.
  { unfold Session.s_cursor in Ho. cbn [store lookup list_lookup] in Ho.
    injection Ho as <-. cbn [database] in Hdb. injection Hdb as <-.
    reflexivity. }
  rewrite Hod. cbn [fmap option_fmap option_map]. rewrite Hi, Hp.
  split; reflexivity.
Defined.


(** * Further properties of the methods *)

(** ** What the methods log, assign and keep *)

Section EffectFacts.
Context `{D : Driver}.

Lemma cam_weaken {A} (n n' : nat) (m : M A) :
  n <= n' -> constructs_at_most n m -> constructs_at_most n' m.
Proof.
  intros Hn Hm s. destruct (Hm s) as (l & H1 & H2 & H3).
  exists l. repeat split; [assumption | assumption | lia].
Qed.

Lemma cam_silent {A} (m : M A) :
  (forall s, calls (snd (m s)) = calls s) -> constructs_at_most 0 m.
Proof.
  intros H s. exists []. rewrite app_nil_r.
  repeat split; [apply H | constructor | reflexivity].
Qed.

Lemma cam_ret {A} (a : A) : constructs_at_most 0 (ret a).
Proof. apply cam_silent. reflexivity. Qed.

Lemma cam_raise {A} (e : exn) : constructs_at_most 0 (@raise _ A e).
Proof. apply cam_silent. reflexivity. Qed.

Lemma cam_load (r : nat) : constructs_at_most 0 (load r).
Proof.
  apply cam_silent. intros s. unfold load.
  destruct (store s !! r); reflexivity.
Qed.

Lemma cam_alloc (k : klass) : constructs_at_most 0 (alloc k).
Proof. apply cam_silent. reflexivity. Qed.

Lemma cam_subscript (v : pyval) (k : string) :
  constructs_at_most 0 (subscript v k).
Proof.
  apply cam_silent. intros s. destruct v; cbn; try reflexivity.
  destruct (dict_get d k); reflexivity.
Qed.

Lemma cam_instance (v : pyval) (a : string) :
  constructs_at_most 0 (Database.instance v a).
Proof. apply cam_silent. intros s. destruct v; reflexivity. Qed.

Lemma cam_bind {A B} (n1 n2 : nat) (m : M A) (f : A -> M B) :
  constructs_at_most n1 m -> (forall a, constructs_at_most n2 (f a)) ->
  constructs_at_most (n1 + n2) (bind m f).
Proof.
  intros Hm Hf s. unfold bind. destruct (Hm s) as (l1 & H1 & H2 & H3).
  destruct (m s) as [[a|e] s1]; cbn [snd] in *.
  - destruct (Hf a s1) as (l2 & G1 & G2 & G3). exists (l1 ++ l2).
    rewrite G1, H1, app_assoc, length_app.
    repeat split; [apply Forall_app; split; assumption | lia].
  - exists l1. repeat split; [assumption | assumption | lia].
Qed.

Lemma cam_attr {A} (f : object -> A) (r : nat) : constructs_at_most 0 (attr f r).
Proof. apply (cam_bind 0 0); [apply cam_load | intros; apply cam_ret]. Qed.

Lemma cam_setattr (r : nat) (upd : object -> object) :
  constructs_at_most 0 (setattr r upd).
Proof.
  apply (cam_bind 0 0); [apply cam_load|]. intros o.
  apply cam_silent. reflexivity.
Qed.

Lemma cam_construct (a b : pyval) (kw : list (string * pyval)) :
  constructs_at_most 1
    (call (EvSimpleConnectionPool a b kw) (drv_SimpleConnectionPool a b kw)).
Proof.
  intros s. exists [EvSimpleConnectionPool a b kw]. unfold call.
  destruct (drv_SimpleConnectionPool a b kw (drv s)) as [[e|p] w];
    repeat split; repeat constructor.
Qed.

Create HintDb cam.
#[local] Hint Resolve cam_ret cam_raise cam_load cam_alloc cam_subscript
  cam_instance cam_attr cam_setattr : cam.

(** The steps that make no call are chained under one bound. *)
Ltac silent :=
  repeat first
    [ solve [auto with cam]
    | progress unfold attr_server, attr_dbname, attr_connection_pool, attr_init,
        attr_database, attr_connection, attr_cursor
    | apply (cam_bind 0 0); [|intros] ].

Lemma cam_Database_init (self : nat) (sv dn : pyval) :
  constructs_at_most 0 (Database.__init__ self sv dn).
Proof. unfold Database.__init__. silent. Qed.

Lemma cam_Database_new (sv dn : pyval) :
  constructs_at_most 0 (Database.new sv dn).
Proof.
  unfold Database.new.
  apply (cam_bind 0 0); [apply cam_alloc|]. intros self.
  apply (cam_bind 0 0); [apply cam_Database_init | intros; apply cam_ret].
Qed.

Lemma cam_initialize (self : nat) :
  constructs_at_most 1 (Database.initialize self).
Proof.
  unfold Database.initialize.
  do 10 (apply (cam_bind 0 1); [silent | intros]).
  apply (cam_bind 1 0); [apply cam_construct | intros; silent].
Qed.

Lemma cam_choose_database (self : nat) (db sv dn : pyval) :
  constructs_at_most 0 (DatabaseCursor.choose_database self db sv dn).
Proof.
  unfold DatabaseCursor.choose_database.
  destruct (negb _); [destruct (_ && _)|]; silent.
Qed.

Lemma cam_connect_database (self : nat) :
  constructs_at_most 1 (DatabaseCursor.connect_database self).
Proof.
  unfold DatabaseCursor.connect_database.
  do 3 (apply (cam_bind 0 1); [silent | intros]).
  apply (cam_bind 1 0).
  - destruct (negb _); [|apply (cam_weaken 0); [lia | apply cam_ret]].
    do 2 (apply (cam_bind 0 1); [silent | intros]). apply cam_initialize.
  - intros. silent.
Qed.


Lemma cam_cursor_init (self : nat) (db sv dn : pyval) :
  constructs_at_most 1 (DatabaseCursor.__init__ self db sv dn).
Proof.
  unfold DatabaseCursor.__init__.
  apply (cam_bind 0 1); [apply cam_Database_init | intros].
  do 2 (apply (cam_bind 0 1); [apply cam_setattr | intros]).
  apply (cam_bind 0 1); [apply cam_choose_database | intros].
  apply cam_connect_database.
Qed.

(** Assignments to [self] leave the other addresses alone. *)
Lemma ao_silent {A} (self : nat) (m : M A) :
  (forall s, store (snd (m s)) = store s) -> assigns_only self m.
Proof. intros H s r _. rewrite H. reflexivity. Qed.

Lemma ao_ret {A} (self : nat) (a : A) : assigns_only self (ret a).
Proof. apply ao_silent. reflexivity. Qed.

Lemma ao_raise {A} (self : nat) (e : exn) : assigns_only self (@raise _ A e).
Proof. apply ao_silent. reflexivity. Qed.

Lemma ao_load (self r : nat) : assigns_only self (load r).
Proof.
  apply ao_silent. intros s. unfold load. destruct (store s !! r); reflexivity.
Qed.

Lemma ao_call {A} (self : nat) (ev : event) (f : world -> (dexn + A) * world) :
  assigns_only self (call ev f).
Proof.
  apply ao_silent. intros s. unfold call.
  destruct (f (drv s)) as [[x|a] w]; reflexivity.
Qed.

Lemma ao_print (self : nat) (x : printed) : assigns_only self (print x).
Proof. apply ao_silent. reflexivity. Qed.

Lemma ao_subscript (self : nat) (v : pyval) (k : string) :
  assigns_only self (subscript v k).
Proof.
  apply ao_silent. intros s. destruct v; cbn; try reflexivity.
  destruct (dict_get d k); reflexivity.
Qed.

Lemma ao_bind {A B} (self : nat) (m : M A) (f : A -> M B) :
  assigns_only self m -> (forall a, assigns_only self (f a)) ->
  assigns_only self (bind m f).
Proof.
  intros Hm Hf s r Hr. unfold bind. specialize (Hm s r Hr).
  destruct (m s) as [[a|e] s1]; cbn [snd] in *; [|exact Hm].
  rewrite (Hf a s1 r Hr). exact Hm.
Qed.

Lemma ao_attr {A} (self : nat) (f : object -> A) (r : nat) :
  assigns_only self (attr f r).
Proof. apply ao_bind; [apply ao_load | intros; apply ao_ret]. Qed.

Lemma ao_setattr (self : nat) (upd : object -> object) :
  assigns_only self (setattr self upd).
Proof.
  apply ao_bind; [apply ao_load|]. intros o s r Hr. cbn [snd store].
  apply list_lookup_insert_ne. congruence.
Qed.

Create HintDb ao.
#[local] Hint Resolve ao_ret ao_raise ao_load ao_call ao_print ao_subscript
  ao_attr ao_setattr : ao.

Ltac local_steps :=
  repeat first
    [ solve [auto with ao]
    | progress unfold attr_server, attr_dbname, attr_connection_pool, attr_init,
        attr_database, attr_connection, attr_cursor
    | match goal with
      | |- assigns_only _ (match ?x with _ => _ end) => destruct x
      end
    | apply ao_bind; [|intros] ].

Lemma ao_initialize (self : nat) : assigns_only self (Database.initialize self).
Proof. unfold Database.initialize. local_steps. Qed.

Lemma ao_get_connection (self : nat) :
  assigns_only self (Database.get_connection self).
Proof. unfold Database.get_connection. local_steps. Qed.

Lemma ao_return_connection (self : nat) (c : option conn) :
  assigns_only self (Database.return_connection self c).
Proof. unfold Database.return_connection. local_steps. Qed.

Lemma ao_close_all_connections (self : nat) :
  assigns_only self (Database.close_all_connections self).
Proof. unfold Database.close_all_connections. local_steps. Qed.

Lemma ao_enter (self : nat) : assigns_only self (DatabaseCursor.__enter__ self).
Proof.
  unfold DatabaseCursor.__enter__.
  apply ao_bind; [apply ao_get_connection | intros]. local_steps.
Qed.

Lemma ao_exit (self : nat) (et : option string) (ev : option exn)
    (tb : option unit) :
  assigns_only self (DatabaseCursor.__exit__ self et ev tb).
Proof.
  unfold DatabaseCursor.__exit__.
  apply ao_bind; [destruct ev; local_steps | intros].
  apply ao_bind; [local_steps | intros].
  apply ao_bind; [apply ao_return_connection | intros; apply ao_ret].
Qed.

(** The class and the configuration of the objects. *)
Lemma same_config_refl (o : object) : same_config o o.
Proof. repeat split. Qed.

Lemma kc_silent {A} (m : M A) :
  (forall s, store (snd (m s)) = store s) -> keeps_config m.
Proof.
  intros H s r o Ho. exists o. rewrite H. split; [exact Ho|].
  apply same_config_refl.
Qed.

Lemma kc_ret {A} (a : A) : keeps_config (ret a).
Proof. apply kc_silent. reflexivity. Qed.

Lemma kc_raise {A} (e : exn) : keeps_config (@raise _ A e).
Proof. apply kc_silent. reflexivity. Qed.

Lemma kc_load (r : nat) : keeps_config (load r).
Proof.
  apply kc_silent. intros s. unfold load. destruct (store s !! r); reflexivity.
Qed.

Lemma kc_call {A} (ev : event) (f : world -> (dexn + A) * world) :
  keeps_config (call ev f).
Proof.
  apply kc_silent. intros s. unfold call.
  destruct (f (drv s)) as [[x|a] w]; reflexivity.
Qed.

Lemma kc_print (x : printed) : keeps_config (print x).
Proof. apply kc_silent. reflexivity. Qed.

Lemma kc_subscript (v : pyval) (k : string) : keeps_config (subscript v k).
Proof.
  apply kc_silent. intros s. destruct v; cbn; try reflexivity.
  destruct (dict_get d k); reflexivity.
Qed.

Lemma kc_bind {A B} (m : M A) (f : A -> M B) :
  keeps_config m -> (forall a, keeps_config (f a)) -> keeps_config (bind m f).
Proof.
  intros Hm Hf s r o Ho. unfold bind.
  destruct (Hm s r o Ho) as (o1 & H1 & E1 & E2 & E3).
  destruct (m s) as [[a|e] s1]; cbn [snd] in *.
  - destruct (Hf a s1 r o1 H1) as (o2 & H2 & G1 & G2 & G3).
    exists o2. split; [exact H2|]. repeat split; congruence.
  - exists o1. split; [exact H1|]. repeat split; assumption.
Qed.

Lemma kc_attr {A} (f : object -> A) (r : nat) : keeps_config (attr f r).
Proof. apply kc_bind; [apply kc_load | intros; apply kc_ret]. Qed.

Lemma kc_setattr (r : nat) (upd : object -> object) :
  (forall o, same_config o (upd o)) -> keeps_config (setattr r upd).
Proof.
  intros Hu s r' o' Ho'. unfold setattr. run.
  destruct (store s !! r) as [o|] eqn:Ho; run.
  - destruct (decide (r = r')) as [<-|Hne].
    + exists (upd o). split; [apply list_lookup_insert_eq; len|].
      rewrite Ho in Ho'. injection Ho' as <-. apply Hu.
    + exists o'. split; [rewrite list_lookup_insert_ne by exact Hne; exact Ho'|].
      apply same_config_refl.
  - exists o'. split; [exact Ho' | apply same_config_refl].
Qed.

Create HintDb kc.
#[local] Hint Resolve kc_ret kc_raise kc_load kc_call kc_print kc_subscript
  kc_attr : kc.

Ltac config_steps :=
  repeat first
    [ solve [auto with kc]
    | apply kc_setattr; intros o; repeat split
    | progress unfold attr_server, attr_dbname, attr_connection_pool, attr_init,
        attr_database, attr_connection, attr_cursor
    | match goal with
      | |- keeps_config (match ?x with _ => _ end) => destruct x
      end
    | apply kc_bind; [|intros] ].

Lemma kc_initialize (self : nat) : keeps_config (Database.initialize self).
Proof. unfold Database.initialize. config_steps. Qed.

Lemma kc_get_connection (self : nat) :
  keeps_config (Database.get_connection self).
Proof. unfold Database.get_connection. config_steps. Qed.

Lemma kc_return_connection (self : nat) (c : option conn) :
  keeps_config (Database.return_connection self c).
Proof. unfold Database.return_connection. config_steps. Qed.

Lemma kc_close_all_connections (self : nat) :
  keeps_config (Database.close_all_connections self).
Proof. unfold Database.close_all_connections. config_steps. Qed.

Lemma kc_enter (self : nat) : keeps_config (DatabaseCursor.__enter__ self).
Proof.
  unfold DatabaseCursor.__enter__.
  apply kc_bind; [apply kc_get_connection | intros]. config_steps.
Qed.

Lemma kc_exit (self : nat) (et : option string) (ev : option exn)
    (tb : option unit) :
  keeps_config (DatabaseCursor.__exit__ self et ev tb).
Proof.
  unfold DatabaseCursor.__exit__.
  apply kc_bind; [destruct ev; config_steps | intros].
  apply kc_bind; [config_steps | intros].
  apply kc_bind; [apply kc_return_connection | intros; apply kc_ret].
Qed.

End EffectFacts.

(** ** Before and after the pool *)

Section LifecycleFacts.
Context `{D : Driver}.

Lemma Database_init_blank (s : state) (self : nat) (k : klass) (sv dn : pyval) :
  store s !! self = Some (blank k) ->
  Database.__init__ self sv dn s =
    (Ret tt,
     {| store := <[self := disconnected k sv dn]> (store s); drv := drv s;
        calls := calls s; stdout := stdout s |}).
Proof.
  intros Ho. unfold Database.__init__. run. rewrite Ho. run.
  repeat (rewrite list_lookup_insert_eq by len; run).
  rewrite !list_insert_insert_eq. reflexivity.
Qed.

Lemma insert_fresh (l : list object) (x y : object) :
  <[length l := y]> (l ++ [x]) = l ++ [y].
Proof.
  rewrite insert_app_r_alt by lia. rewrite Nat.sub_diag. reflexivity.
Qed.

Lemma Database_new_run (s : state) (sv dn : pyval) :
  Database.new sv dn s =
    (Ret (length (store s)),
     {| store := store s ++ [disconnected KDatabase sv dn]; drv := drv s;
        calls := calls s; stdout := stdout s |}).
Proof.
  unfold Database.new. unfold bind at 1. cbn [alloc].
  unfold bind at 1. rewrite (Database_init_blank _ _ KDatabase).
  - cbn [store drv calls stdout ret]. rewrite insert_fresh. reflexivity.
  - cbn [store]. apply lookup_fresh.
Qed.

(** X1.  A new [Database] is disconnected: the constructor calls nothing
    of the driver, and until [initialize] the three methods that use the
    pool raise [AttributeError] and change nothing. *)
Theorem new_database_is_disconnected (s : state) (sv dn : pyval)
    (c : option conn) :
  let d := length (store s) in
  let s' := {| store := store s ++ [disconnected KDatabase sv dn];
               drv := drv s; calls := calls s; stdout := stdout s |} in
  Database.new sv dn s = (Ret d, s') /\
  Database.get_connection d s' =
    (Raise (AttributeError "NoneType" "getconn"), s') /\
  Database.return_connection d c s' =
    (Raise (AttributeError "NoneType" "putconn"), s') /\
  Database.close_all_connections d s' =
    (Raise (AttributeError "NoneType" "closeall"), s').
Proof.
  cbv zeta. split; [apply Database_new_run|].
  assert (Hd : store {| store := store s ++ [disconnected KDatabase sv dn];
                        drv := drv s; calls := calls s; stdout := stdout s |}
               !! length (store s) = Some (disconnected KDatabase sv dn))
    by apply lookup_fresh.
  split; [|split].
  - eapply get_connection_no_pool; [exact Hd | reflexivity].
  - unfold Database.return_connection. run. cbn [store] in Hd. rewrite Hd.
    reflexivity.
  - eapply close_all_connections_no_pool; [exact Hd | reflexivity].
Qed.

(** X2.  [initialize] needs [server] to be a dict whose item [param] is a
    dict: otherwise it raises [TypeError], or [KeyError] when [param] is
    missing, before any call to the driver and without a change.  The first
    case is that of an object built with the default arguments. *)
Theorem initialize_needs_param_dict (s : state) (self : nat) (o : object) :
  store s !! self = Some o ->
  (isinstance_dict (server o) = false ->
   exists msg, Database.initialize self s = (Raise (TypeError msg), s)) /\
  (forall sd,
     server o = VDict sd -> dict_get sd "param" = None ->
     Database.initialize self s = (Raise (KeyError "param"), s)) /\
  (forall sd v,
     server o = VDict sd -> dict_get sd "param" = Some v ->
     isinstance_dict v = false ->
     exists msg, Database.initialize self s = (Raise (TypeError msg), s)).
Proof.
  intros Ho. repeat split.
  - intros Hs. unfold Database.initialize. run. rewrite Ho. run.
    destruct (server o); try discriminate; cbn [subscript]; run; eauto.
  - intros sd Hs Hp. unfold Database.initialize. run. rewrite Ho. run.
    rewrite Hs. cbn [subscript]. rewrite Hp. reflexivity.
  - intros sd v Hs Hp Hv. unfold Database.initialize. run. rewrite Ho. run.
    rewrite Hs. cbn [subscript]. rewrite Hp. run. rewrite Ho. run.
    destruct v; try discriminate; cbn [subscript]; run; eauto.
Qed.

(** X3.  When the pool constructor raises, [initialize] raises the same
    exception and the object is as connected as it was: [init] and
    [connection_pool] are not assigned, only [params] is, and no other
    object changes. *)
Theorem initialize_driver_failure (s : state) (self : nat) (o : object)
    (sd d : list (string * pyval)) (e : dexn) (w : world) :
  store s !! self = Some o -> server o = VDict sd ->
  dict_get sd "param" = Some (VDict d) ->
  first_missing d required_keys = None ->
  drv_SimpleConnectionPool (item d "minconn") (item d "maxconn")
    (connection_params_of d (dbname o)) (drv s) = (inl e, w) ->
  fst (Database.initialize self s) = Raise (DriverError e) /\
  (exists o',
     store (snd (Database.initialize self s)) !! self = Some o' /\
     init o' = init o /\ connection_pool o' = connection_pool o /\
     params o' =
       Some (item d "minconn", item d "maxconn",
             connection_params_of d (dbname o))) /\
  (forall r, r <> self ->
     store (snd (Database.initialize self s)) !! r = store s !! r).
Proof.
  intros Ho Hs Hp Hk Hw.
  rewrite (initialize_all_keys _ _ _ _ _ Ho Hs Hp Hk). cbv zeta.
  rewrite Hw. cbn [fst snd store]. split; [reflexivity|]. split.
  - eexists. split; [eapply lookup_insert_here, Ho|]. repeat split.
  - intros r Hr. apply list_lookup_insert_ne. congruence.
Qed.

(** X4.  The configuration outlives a shutdown: after
    [close_all_connections], [initialize] hands the same arguments to the
    pool constructor; if that returns, the object is initialized again with
    the new pool, and [get_connection] reaches that pool. *)
Theorem shutdown_then_initialize (s s1 : state) (self : nat) (o : object)
    (sd d : list (string * pyval)) (p' : pool) (w' : world) :
  store s !! self = Some o -> server o = VDict sd ->
  dict_get sd "param" = Some (VDict d) ->
  first_missing d required_keys = None ->
  Database.close_all_connections self s = (Ret tt, s1) ->
  drv_SimpleConnectionPool (item d "minconn") (item d "maxconn")
    (connection_params_of d (dbname o)) (drv s1) = (inr p', w') ->
  fst (Database.initialize self s1) = Ret tt /\
  (exists o2,
     store (snd (Database.initialize self s1)) !! self = Some o2 /\
     init o2 = true /\ connection_pool o2 = Some p') /\
  fst (Database.get_connection self (snd (Database.initialize self s1))) =
    match fst (drv_getconn p' w') with
    | inl e => Raise (DriverError e)
    | inr c => Ret c
    end.
Proof.
  intros Ho Hs Hp Hk Hclose Hw.
  destruct (close_all_connections_inv _ _ _ Hclose)
    as (o0 & p & w & Ho0 & Hp0 & Hw0 & ->).
  rewrite Ho in Ho0. injection Ho0 as <-.
  assert (Ho1 : store {| store := <[self := set_connection_pool None
                                              (set_init false o)]> (store s);
                         drv := w; calls := calls s ++ [EvCloseall p];
                         stdout := stdout s |} !! self =
                Some (set_connection_pool None (set_init false o)))
    by (cbn [store]; eapply lookup_insert_here, Ho).
  assert (Hs1 : server (set_connection_pool None (set_init false o)) = VDict sd)
    by exact Hs.
  rewrite (initialize_all_keys _ _ _ sd d Ho1 Hs1 Hp Hk). cbv zeta.
  cbn [dbname set_connection_pool set_init drv] in *. rewrite Hw.
  cbn [fst snd store]. split; [reflexivity|]. split.
  - eexists. split; [apply list_lookup_insert_eq; len|]. split; reflexivity.
  - unfold Database.get_connection. run. lk. run.
    cbn [connection_pool set_init set_connection_pool set_params]. run.
    destruct (drv_getconn p' w') as [[e|c] w2]; reflexivity.
Qed.

End LifecycleFacts.

(** ** The cursor object *)

Section CursorFacts.
Context `{D : Driver}.

(** X5.  On a database that is initialized, the constructor of the cursor
    calls nothing of the driver and leaves every object as it was: the new
    object takes the pool of the database, borrows no connection yet, and
    its own [init] stays false.  [server] and [dbname] are only stored,
    whatever they are. *)
Theorem cursor_on_initialized_database (s : state) (d : nat) (od : object)
    (sv dn : pyval) :
  store s !! d = Some od -> init od = true ->
  DatabaseCursor.new (VRef d) sv dn s =
    (Ret (length (store s)),
     {| store := store s ++
                 [set_connection_pool (connection_pool od)
                    (set_database (VRef d)
                       (disconnected KDatabaseCursor sv dn))];
        drv := drv s; calls := calls s; stdout := stdout s |}).
Proof.
  intros Hod Hi.
  assert (Hlt : d < length (store s)) by (eapply lookup_lt_Some, Hod).
  unfold DatabaseCursor.new, DatabaseCursor.__init__. unfold bind at 1.
  cbn [alloc]. unfold bind at 1. unfold bind at 1.
  rewrite (Database_init_blank _ _ KDatabaseCursor)
    by (cbn [store]; apply lookup_fresh).
  cbn [store drv calls stdout]. rewrite insert_fresh.
  unfold DatabaseCursor.choose_database, DatabaseCursor.connect_database.
  repeat (progress (rewrite ?insert_fresh, ?lookup_fresh; run;
                    cbn [database set_database Database.instance
                           isinstance_Database negb];
                    rewrite ?lookup_app_l by exact Hlt;
                    rewrite ?Hod, ?Hi)).
  reflexivity.
Qed.

(** X6.  The constructors and [initialize] make at most one call into the
    driver, and only a pool construction: building a cursor object borrows
    no connection, and initializing an object that has a pool already does
    not close that pool. *)
Theorem constructors_only_construct (s : state) (self : nat)
    (db sv dn dc : pyval) :
  (exists l,
     calls (snd (DatabaseCursor.new db sv dn s)) = calls s ++ l /\
     Forall (fun ev => is_construct ev = true) l /\ length l <= 1) /\
  (exists l,
     calls (snd (Database.initialize self s)) = calls s ++ l /\
     Forall (fun ev => is_construct ev = true) l /\ length l <= 1) /\
  calls (snd (Database.new sv dn s)) = calls s /\
  calls (snd (Query.new sv dn dc s)) = calls s.
Proof.
  split; [|split; [|split]].
  - refine (_ s). change (constructs_at_most 1 (DatabaseCursor.new db sv dn)).
    unfold DatabaseCursor.new.
    apply (cam_bind 0 1); [apply cam_alloc | intros r].
    apply (cam_bind 1 0); [apply cam_cursor_init | intros; apply cam_ret].
  - apply cam_initialize.
  - rewrite Database_new_run. reflexivity.
  - assert (H : constructs_at_most 0 (Query.new sv dn dc)).
    { unfold Query.new, Query.__init__.
      apply (cam_bind 0 0); [apply cam_alloc | intros r].
      apply (cam_bind 0 0); [|intros; apply cam_ret].
      apply (cam_bind 0 0); [apply cam_Database_init | intros].
      do 2 (apply (cam_bind 0 0); [apply cam_setattr | intros]).
      apply cam_setattr. }
    destruct (H s) as (l & Hl & _ & Hn). destruct l; [|cbn in Hn; lia].
    rewrite Hl. apply app_nil_r.
Qed.

(** X7.  When the entry fails, the body does not run and nothing is
    released.  If the pool refuses a connection, the object is unchanged;
    if the cursor cannot be opened, the connection just acquired stays in
    [self.connection] and no [putconn] is made for it. *)
Theorem entry_failure (s : state) (self : nat) (o : object) (p : pool)
    (body : option cur -> M unit) :
  store s !! self = Some o -> connection_pool o = Some p ->
  (forall e w,
     drv_getconn p (drv s) = (inl e, w) ->
     DatabaseCursor.with_as self body s =
       (Raise (DriverError e),
        {| store := store s; drv := w; calls := calls s ++ [EvGetconn p];
           stdout := stdout s |})) /\
  (forall c w1 e w2,
     drv_getconn p (drv s) = (inr c, w1) ->
     drv_cursor c w1 = (inl e, w2) ->
     DatabaseCursor.with_as self body s =
       (Raise (DriverError e),
        {| store := <[self := set_connection (Some c) o]> (store s);
           drv := w2; calls := calls s ++ [EvGetconn p; EvCursor c];
           stdout := stdout s |})).
Proof.
  intros Ho Hp. split.
  - intros e w Hg.
    unfold DatabaseCursor.with_as, DatabaseCursor.__enter__,
      Database.get_connection. run. rewrite Ho. run. rewrite Hp. run.
    rewrite Hg. reflexivity.
  - intros c w1 e w2 Hg Hc.
    unfold DatabaseCursor.with_as, DatabaseCursor.__enter__,
      Database.get_connection. run. rewrite Ho. run. rewrite Hp. run.
    rewrite Hg. run. rewrite Ho. run. lk. run.
    cbn [connection set_connection]. run. rewrite Hc.
    rewrite <- app_assoc. reflexivity.
Qed.

Lemma enter_returns (s : state) (self : nat) (o : object) (p : pool)
    (c : conn) (k : cur) (w1 w2 : world) :
  store s !! self = Some o -> connection_pool o = Some p ->
  drv_getconn p (drv s) = (inr c, w1) -> drv_cursor c w1 = (inr k, w2) ->
  DatabaseCursor.__enter__ self s =
    (Ret (Some k),
     {| store := <[self := set_cursor (Some k) (set_connection (Some c) o)]>
                   (store s);
        drv := w2; calls := calls s ++ [EvGetconn p; EvCursor c];
        stdout := stdout s |}).
Proof.
  intros Ho Hp Hg Hc.
  unfold DatabaseCursor.__enter__, Database.get_connection. run.
  rewrite Ho. run. rewrite Hp. run. rewrite Hg. run. rewrite Ho. run.
  lk. run. cbn [connection set_connection]. run. rewrite Hc. run.
  lk. run. lk. run. lk. rewrite <- app_assoc. reflexivity.
Qed.


(** X9.  The exit handler of an object that borrows nothing -- one that
    was built and never entered -- raises [AttributeError] without a call
    to the driver: at once when there is no cursor to close, after its two
    prints when there is no connection to roll back. *)
Theorem exit_without_enter (s : state) (self : nat) (o : object)
    (et : option string) (tb : option unit) :
  store s !! self = Some o ->
  (cursor o = None ->
   DatabaseCursor.__exit__ self et None tb s =
     (Raise (AttributeError "NoneType" "close"), s)) /\
  (connection o = None ->
   forall e,
     DatabaseCursor.__exit__ self et (Some e) tb s =
       (Raise (AttributeError "NoneType" "rollback"),
        {| store := store s; drv := drv s; calls := calls s;
           stdout := stdout s ++ [PrintType et; PrintVal (Some e)] |})).
Proof.
  intros Ho. split.
  - intros Hk. unfold DatabaseCursor.__exit__. run. rewrite Ho. run.
    rewrite Hk. reflexivity.
  - intros Hc e. unfold DatabaseCursor.__exit__. run. rewrite Ho. run.
    rewrite Hc. rewrite <- app_assoc. reflexivity.
Qed.

(** X10.  The constructor of [Query] connects nothing: it stores its three
    arguments, calls nothing of the driver and takes no pool from
    [dbcursor], whatever [dbcursor] is.  On the object as it is built --
    before an [initialize], which [Query] inherits as well -- the
    [get_connection] it inherits raises [AttributeError] and changes
    nothing. *)
Theorem query_is_disconnected (s : state) (sv dn dc : pyval) :
  let q := length (store s) in
  let s' := {| store := store s ++
                        [set_dbcursor dc (disconnected KQuery sv dn)];
               drv := drv s; calls := calls s; stdout := stdout s |} in
  Query.new sv dn dc s = (Ret q, s') /\
  Database.get_connection q s' =
    (Raise (AttributeError "NoneType" "getconn"), s').
Proof.
  cbv zeta. split.
  - unfold Query.new, Query.__init__. unfold bind at 1. cbn [alloc].
    unfold bind at 1. unfold bind at 1.
    rewrite (Database_init_blank _ _ KQuery)
      by (cbn [store]; apply lookup_fresh).
    cbn [store drv calls stdout]. rewrite insert_fresh. run.
    rewrite lookup_fresh. run.
    rewrite insert_fresh, lookup_fresh. run.
    rewrite insert_fresh, lookup_fresh. run. rewrite insert_fresh.
    reflexivity.
  - eapply get_connection_no_pool; [apply lookup_fresh | reflexivity].
Qed.

(** X11.  Every method keeps the invariant of the store, whether it returns
    or raises: no object has [init] true without a pool. *)
Theorem methods_keep_invariant (s : state) (self : nat) (db sv dn dc : pyval)
    (c : option conn) (et : option string) (ev : option exn)
    (tb : option unit) :
  wf_store s = true ->
  wf_store (snd (Database.new sv dn s)) = true /\
  wf_store (snd (Database.initialize self s)) = true /\
  wf_store (snd (Database.get_connection self s)) = true /\
  wf_store (snd (Database.return_connection self c s)) = true /\
  wf_store (snd (Database.close_all_connections self s)) = true /\
  wf_store (snd (DatabaseCursor.new db sv dn s)) = true /\
  wf_store (snd (DatabaseCursor.__enter__ self s)) = true /\
  wf_store (snd (DatabaseCursor.__exit__ self et ev tb s)) = true /\
  wf_store (snd (Query.new sv dn dc s)) = true.
Proof.
  intros H. repeat split.
  - apply keeps_Database_new, H.
  - apply keeps_initialize, H.
  - apply keeps_get_connection, H.
  - apply keeps_return_connection, H.
  - apply keeps_close_all_connections, H.
  - apply keeps_cursor_new, H.
  - apply keeps_enter, H.
  - apply keeps_exit, H.
  - apply keeps_Query_new, H.
Qed.

(** X12.  The methods other than the constructors keep every object at its
    address with its class, its [server] and its [dbname]: the
    configuration is only ever assigned by a constructor. *)
Theorem methods_keep_config (s : state) (self r : nat) (o : object)
    (c : option conn) (et : option string) (ev : option exn)
    (tb : option unit) :
  store s !! r = Some o ->
  (exists o', store (snd (Database.initialize self s)) !! r = Some o' /\
              same_config o o') /\
  (exists o', store (snd (Database.get_connection self s)) !! r = Some o' /\
              same_config o o') /\
  (exists o', store (snd (Database.return_connection self c s)) !! r = Some o' /\
              same_config o o') /\
  (exists o', store (snd (Database.close_all_connections self s)) !! r =
                Some o' /\
              same_config o o') /\
  (exists o', store (snd (DatabaseCursor.__enter__ self s)) !! r = Some o' /\
              same_config o o') /\
  (exists o', store (snd (DatabaseCursor.__exit__ self et ev tb s)) !! r =
                Some o' /\
              same_config o o').
Proof.
  intros Ho. repeat apply conj.
  - exact (kc_initialize self s r o Ho).
  - exact (kc_get_connection self s r o Ho).
  - exact (kc_return_connection self c s r o Ho).
  - exact (kc_close_all_connections self s r o Ho).
  - exact (kc_enter self s r o Ho).
  - exact (kc_exit self et ev tb s r o Ho).
Qed.

(** X13.  The methods other than the constructors assign attributes of the
    object they are called on and of no other: an object that shares the
    pool of [self] is not told of its shutdown or of a new pool. *)
Theorem methods_assign_self_only (s : state) (self r : nat)
    (c : option conn) (et : option string) (ev : option exn)
    (tb : option unit) :
  r <> self ->
  store (snd (Database.initialize self s)) !! r = store s !! r /\
  store (snd (Database.get_connection self s)) !! r = store s !! r /\
  store (snd (Database.return_connection self c s)) !! r = store s !! r /\
  store (snd (Database.close_all_connections self s)) !! r = store s !! r /\
  store (snd (DatabaseCursor.__enter__ self s)) !! r = store s !! r /\
  store (snd (DatabaseCursor.__exit__ self et ev tb s)) !! r = store s !! r.
Proof.
  intros Hr. repeat apply conj.
  - exact (ao_initialize self s r Hr).
  - exact (ao_get_connection self s r Hr).
  - exact (ao_return_connection self c s r Hr).
  - exact (ao_close_all_connections self s r Hr).
  - exact (ao_enter self s r Hr).
  - exact (ao_exit self et ev tb s r Hr).
Qed.

End CursorFacts.

(** ** The printed form *)

Section ReprFacts.
Context `{D : Driver} {B : Builtins}.

(** X14.  [__repr__] of [Database] and of [Query] need the item [name] of
    [server]: without it they raise [KeyError], and [TypeError] when
    [server] is no dict, as it is with the default arguments; nothing is
    formatted and nothing changes.  It is so whether the object is
    connected or not. *)
Theorem repr_needs_server_name (s : state) (self : nat) (o : object) :
  store s !! self = Some o ->
  (forall sd,
     server o = VDict sd -> dict_get sd "name" = None ->
     Database.__repr__ self s = (Raise (KeyError "name"), s) /\
     Query.__repr__ self s = (Raise (KeyError "name"), s)) /\
  (isinstance_dict (server o) = false ->
   exists msg,
     Database.__repr__ self s = (Raise (TypeError msg), s) /\
     Query.__repr__ self s = (Raise (TypeError msg), s)).
Proof.
  intros Ho. split.
  - intros sd Hs Hn. split.
    + unfold Database.__repr__. run. rewrite Ho. run.
      destruct (connection_pool o); run; rewrite ?Ho; run;
        [destruct (init o)|]; run; rewrite ?Ho; run;
        rewrite Hs; cbn [subscript]; rewrite Hn; reflexivity.
    + unfold Query.__repr__. run. rewrite Ho. run. rewrite Hs.
      cbn [subscript]. rewrite Hn. reflexivity.
  - intros Hs.
    assert (exists msg, forall st : state,
               subscript (server o) "name" st = (Raise (TypeError msg), st))
      as [msg Hsub].
    { destruct (server o); try discriminate; cbn [subscript]; eauto. }
    exists msg. split.
    + unfold Database.__repr__. run. rewrite Ho. run.
      destruct (connection_pool o); run; rewrite ?Ho; run;
        [destruct (init o)|]; run; rewrite ?Ho; run;
        rewrite Hsub; reflexivity.
    + unfold Query.__repr__. run. rewrite Ho. run. rewrite Hsub. reflexivity.
Qed.

(** X15.  The printed form follows the life of the pool: once
    [initialize] has returned it is made from the template for a connected
    database, once [close_all_connections] has returned from the one for a
    disconnected database, with the same two arguments. *)
Theorem repr_follows_pool (s s1 : state) (self : nat) (o : object)
    (sd : list (string * pyval)) (name : pyval) :
  store s !! self = Some o -> server o = VDict sd ->
  dict_get sd "name" = Some name ->
  (Database.initialize self s = (Ret tt, s1) ->
   Database.__repr__ self s1 =
     str_format "<Connected Database {} on {}>" [dbname o; name] s1) /\
  (Database.close_all_connections self s = (Ret tt, s1) ->
   Database.__repr__ self s1 =
     str_format "<Disconnected Database {} on {}>" [dbname o; name] s1).
Proof.
  intros Ho Hs Hn. split.
  - intros Hi. apply initialize_returns in Hi
      as (o0 & p & mn & mx & kw & w & Ho0 & Hw & ->).
    rewrite Ho in Ho0. injection Ho0 as <-.
    unfold Database.__repr__. run. lk. run.
    cbn [connection_pool init dbname server set_init set_connection_pool
           set_params]. run. lk. run.
    cbn [connection_pool init dbname server set_init set_connection_pool
           set_params]. run. lk. run. lk. run.
    cbn [connection_pool init dbname server set_init set_connection_pool
           set_params].
    rewrite Hs. cbn [subscript]. rewrite Hn. reflexivity.
  - intros Hc. apply close_all_connections_inv in Hc
      as (o0 & p & w & Ho0 & Hp & Hw & ->).
    rewrite Ho in Ho0. injection Ho0 as <-.
    unfold Database.__repr__. run. lk. run.
    cbn [connection_pool init dbname server set_init set_connection_pool].
    run. lk. run. lk. run.
    cbn [connection_pool init dbname server set_init set_connection_pool].
    rewrite Hs. cbn [subscript]. rewrite Hn. reflexivity.
Qed.

End ReprFacts.

(** ** The cursor object and the objects it shares with *)

Section SharingFacts.
Context `{D : Driver}.




(** X17.  The entry does not look at what the object holds: entering an
    object that is inside a scope already overwrites [self.connection] and
    [self.cursor] with the second connection and cursor, and the first
    connection is in no attribute any more.  Every exit from there, in any
    number, acts on the second pair only. *)
Theorem reentry_forgets_first_connection (s : state) (self : nat)
    (o : object) (p : pool) (c1 c2 : conn) (k1 k2 : cur)
    (w1 w2 w3 w4 : world) :
  store s !! self = Some o -> connection_pool o = Some p ->
  drv_getconn p (drv s) = (inr c1, w1) -> drv_cursor c1 w1 = (inr k1, w2) ->
  drv_getconn p w2 = (inr c2, w3) -> drv_cursor c2 w3 = (inr k2, w4) ->
  (DatabaseCursor.__enter__ self ;;; DatabaseCursor.__enter__ self) s =
    (Ret (Some k2),
     {| store := <[self := set_cursor (Some k2) (set_connection (Some c2) o)]>
                   (store s);
        drv := w4;
        calls := calls s ++
                 [EvGetconn p; EvCursor c1; EvGetconn p; EvCursor c2];
        stdout := stdout s |}) /\
  (forall et ev tb s2,
     store s2 =
       <[self := set_cursor (Some k2) (set_connection (Some c2) o)]> (store s) ->
     store (snd (DatabaseCursor.__exit__ self et ev tb s2)) = store s2 /\
     (releases (emitted s2 (snd (DatabaseCursor.__exit__ self et ev tb s2))) = [] \/
      releases (emitted s2 (snd (DatabaseCursor.__exit__ self et ev tb s2))) =
        [(p, Some c2)])).
Proof.
  intros Ho Hp Hg1 Hc1 Hg2 Hc2. split.
  - unfold bind.
    rewrite (enter_returns _ _ _ _ _ _ _ _ Ho Hp Hg1 Hc1).
    erewrite enter_returns;
      [ | cbn [store]; eapply lookup_insert_here, Ho | exact Hp
        | exact Hg2 | exact Hc2 ].
    cbn [store drv calls stdout]. rewrite list_insert_insert_eq.
    rewrite <- app_assoc. reflexivity.
  - intros et ev tb s2 Hst.
    assert (Ho2 : store s2 !! self =
                  Some (set_cursor (Some k2) (set_connection (Some c2) o)))
      by (rewrite Hst; eapply lookup_insert_here, Ho).
    destruct ev as [e|].
    + rewrite (exit_after_fault _ _ _ p c2 et e tb Ho2 Hp eq_refl).
      destruct (drv_rollback c2 (drv s2)) as [[x|u] v1];
        [|destruct (drv_putconn p (Some c2) v1) as [[x|u'] v2]];
        (split; [reflexivity|]); (erewrite emitted_app by reflexivity);
        cbn; auto.
    + rewrite (exit_after_body _ _ _ p c2 k2 et tb Ho2 Hp eq_refl eq_refl).
      destruct (drv_cursor_close k2 (drv s2)) as [[x|u] v1];
        [|destruct (drv_commit c2 v1) as [[x|u'] v2];
          [|destruct (drv_putconn p (Some c2) v2) as [[x|u''] v3]]];
        (split; [reflexivity|]); (erewrite emitted_app by reflexivity);
        cbn; auto.
Qed.

End SharingFacts.

(** * The further properties on a session *)

(** X2 on the object built with the default arguments. *)
Lemma initialize_needs_param_dict_witness :
  exists msg,
    Database.initialize 0 Session.s_default =
    (Raise (TypeError msg), Session.s_default).
Proof.
  exact (proj1 (initialize_needs_param_dict Session.s_default 0 _ eq_refl)
           eq_refl).
Defined.

(** X3 on a server that has one slot for the two connections asked for:
    the object stays uninitialized. *)
Lemma initialize_driver_failure_witness :
  fst (Database.initialize 0 Session.s_one_slot) =
  Raise (DriverError (Psycopg2.OperationalError "could not connect to server")).
Proof.
  refine (proj1 (initialize_driver_failure Session.s_one_slot 0 _ _ _ _ _
                   eq_refl eq_refl eq_refl eq_refl eq_refl)).
Defined.

(** X4 on the initialized database, shut down and initialized again: the
    new pool is pool 1. *)
Lemma shutdown_then_initialize_witness :
  fst (Database.initialize 0 Session.s_shut) = Ret tt.
Proof.
  refine (proj1 (shutdown_then_initialize Session.s_db Session.s_shut 0 _ _ _
                   1 _ eq_refl eq_refl eq_refl eq_refl eq_refl eq_refl)).
Defined.

(** X5 on a cursor object made for the initialized database, without
    configuration of its own. *)
Lemma cursor_on_initialized_database_witness :
  fst (DatabaseCursor.new (VRef 0) VNone VNone Session.s_db) = Ret 1 /\
  calls (snd (DatabaseCursor.new (VRef 0) VNone VNone Session.s_db)) =
  calls Session.s_db.
Proof.
  rewrite (cursor_on_initialized_database Session.s_db 0 _ VNone VNone
             eq_refl eq_refl).
  split; reflexivity.
Defined.

(** X7 on the cursor object whose database was shut down: the closed pool
    refuses the connection, whatever the body is. *)
Lemma entry_failure_witness :
  fst (DatabaseCursor.with_as 0 Session.body_ok Session.s_cursor_shut) =
  Raise (DriverError (Psycopg2.PoolError "connection pool is closed")).
Proof.
  refine (f_equal fst
            (proj1 (entry_failure Session.s_cursor_shut 0 _ 0 Session.body_ok
                      eq_refl eq_refl) _ _ eq_refl)).
Defined.


(** X9 on the cursor object that was built and not entered. *)
Lemma exit_without_enter_witness :
  DatabaseCursor.__exit__ 0 None None None Session.s_cursor =
  (Raise (AttributeError "NoneType" "close"), Session.s_cursor).
Proof.
  exact (proj1 (exit_without_enter Session.s_cursor 0 _ None None eq_refl)
           eq_refl).
Defined.

(** X11 on the initialization of the new database. *)
Lemma methods_keep_invariant_witness :
  wf_store (snd (Database.initialize 0 Session.s_new)) = true.
Proof.
  exact (proj1 (proj2 (methods_keep_invariant Session.s_new 0 VNone VNone
                         VNone VNone None None None None eq_refl))).
Defined.

(** X12 on the shutdown of the initialized database: its configuration is
    as it was. *)
Lemma methods_keep_config_witness :
  server <$> store (snd (Database.close_all_connections 0 Session.s_db)) !! 0 =
  server <$> store Session.s_db !! 0.
Proof.
  destruct (proj1 (proj2 (proj2 (proj2
              (methods_keep_config Session.s_db 0 0 _ None None None None
                 eq_refl)))))
    as (o' & Ho' & _ & Hs & _).
  rewrite Ho'. cbn [fmap option_fmap option_map]. rewrite Hs. reflexivity.
Defined.

(** X13 on the cursor object and its database: a shutdown through the
    cursor object leaves the database object as it was, initialized and
    with the pool. *)
Lemma methods_assign_self_only_witness :
  store (snd (Database.close_all_connections 0 Session.s_cursor)) !! 1 =
  store Session.s_cursor !! 1.
Proof.
  refine (proj1 (proj2 (proj2 (proj2
            (methods_assign_self_only Session.s_cursor 0 1 None None None None
               _))))).
  discriminate.
Defined.

(** X14 on the object built with the default arguments. *)
Lemma repr_needs_server_name_witness :
  exists msg,
    Database.__repr__ 0 Session.s_default =
      (Raise (TypeError msg), Session.s_default) /\
    Query.__repr__ 0 Session.s_default =
      (Raise (TypeError msg), Session.s_default).
Proof.
  exact (proj2 (repr_needs_server_name Session.s_default 0 _ eq_refl)
           eq_refl).
Defined.

(** X15 on the database of the session, once initialized. *)
Lemma repr_follows_pool_witness :
  Database.__repr__ 0 Session.s_db =
  (Ret "<Connected Database db on my-db>", Session.s_db).
Proof.
  rewrite (proj1 (repr_follows_pool Session.s_new Session.s_db 0 _ _ _
                    eq_refl eq_refl eq_refl) eq_refl).
  reflexivity.
Defined.


(** X17 on the cursor object of the session, entered twice: the second
    entry borrows connection 0, and connection 1 of the first entry is in
    no attribute any more. *)
Lemma reentry_forgets_first_connection_witness :
  connection <$>
    store (snd ((DatabaseCursor.__enter__ 0 ;;; DatabaseCursor.__enter__ 0)
                  Session.s_cursor)) !! 0 = Some (Some 0).
Proof.
  rewrite (proj1 (reentry_forgets_first_connection Session.s_cursor 0 _ 0
                    1 0 0 1 _ _ _ _
                    eq_refl eq_refl eq_refl eq_refl eq_refl eq_refl)).
  reflexivity.
Defined.
